(** * The reconciliation and accounting loop of the SSRPanel plugin (panel.go)

    A shallow embedding of [Panel.do], [Panel.getTraffic],
    [Panel.mulTrafficRate], [Panel.syncUser], [Panel.convertUser],
    [findUserModelIndex] and [inUserModels].

    The panel talks to three collaborators: the database, the stats service
    and the handler service of the proxy.  Their answers are not decided by
    the panel, so they are oracles that see the history of everything the
    panel did so far.  The panel itself is a state: the provisioned users
    [p.userModels], the counter [p.db.RetryTimes], and the history. *)

From Stdlib Require Import List ZArith NArith Bool String Ascii Lia.
From Stdlib Require Import DecimalString SpecFloat.
Import ListNotations.
Open Scope Z_scope.

(** ** Data *)

(** Go's [error]; [None] is [nil]. *)
Definition Error := string.

(** Modelled from the spec: the struct [UserModel] is declared outside
    panel.go.  Its fields are the ones panel.go reads and the spec's data model
    lists: numeric identifier, credential, label, port. *)
Record UserModel := mkUserModel {
  ID : N;            (* uint *)
  VmessID : string;
  Email : string;
  Port : Z           (* int *)
}.

(** Go's [==] on the struct: every field compared. *)
Definition UserModel_eqb (a b : UserModel) : bool :=
  N.eqb (ID a) (ID b) && String.eqb (VmessID a) (VmessID b)
  && String.eqb (Email a) (Email b) && Z.eqb (Port a) (Port b).

(** IEEE 754 binary64, Go's [float64]. *)
Definition float64 := spec_float.
Definition prec64 : Z := 53.
Definition emax64 : Z := 1024.

Record UserTrafficLog := mkUserTrafficLog {
  UserID : N;        (* uint *)
  Uplink : N;        (* uint64 *)
  Downlink : N;      (* uint64 *)
  log_NodeID : N;
  Rate : float64;
  Traffic : string
}.

Record userStatsLogs := mkUserStatsLogs {
  embedded : UserTrafficLog;
  UserPort : Z
}.

Record NodeInfo := mkNodeInfo {
  info_NodeID : N;
  Uptime : Z;
  Load : string
}.

Record NodeOnlineLog := mkNodeOnlineLog {
  online_NodeID : N;
  OnlineUser : Z
}.

(** The account payload of [protocol.User], one shape per protocol. *)
Inductive Account :=
| VlessAccount (Id : string)
| TrojanAccount (Password : string)
| VmessAccount (Id : string) (AlterId : N) (SecuritySettings : string).

Record ProtocolUser := mkProtocolUser {
  Level : N;
  user_Email : string;
  user_Account : Account
}.

(** The map handed to [Updates]: the two CASE expressions and the time. *)
Record TotalsUpdate := mkTotalsUpdate {
  where_ids : list N;
  set_u : string;
  set_d : string;
  set_t : Z
}.

(** ** What the panel does to the outside *)

Inductive Severity := Debug | Warning.

Inductive LogMsg :=
| LostDb (retry : Z)
| Summary (added deleted : Z) (down up : string) (online : Z)
| DeletedUser (u : UserModel)
| AddedUser (u : UserModel)
| AddUserErr (e : Error) (u : UserModel).

Inductive Event :=
| EvPing
| EvCreateNodeInfo (i : NodeInfo)
| EvGetUserDownlink (email : string)
| EvGetUserUplink (email : string)
| EvCreateUserTrafficLog (l : UserTrafficLog)
| EvCreateNodeOnlineLog (l : NodeOnlineLog)
| EvUpdates (u : TotalsUpdate)
| EvGetAllUsers (node : N)
| EvDelUser (email : string)
| EvAddUser (u : ProtocolUser)
| EvLog (s : Severity) (m : LogMsg)
| EvFatal (e : Error) (u : UserModel).

Definition History := list Event.

(** The collaborators.  Each answer may depend on the history; the pure
    library functions do not. *)
Record World := mkWorld {
  db_Ping : History -> option Error;
  db_CreateNodeInfo : History -> NodeInfo -> option Error;
  db_CreateUserTrafficLog : History -> UserTrafficLog -> option Error;
  db_CreateNodeOnlineLog : History -> NodeOnlineLog -> option Error;
  db_Updates : History -> TotalsUpdate -> option Error;
  db_GetAllUsers : History -> N -> Error + list UserModel;
  stats_getUserDownlink : History -> string -> Error + N;
  stats_getUserUplink : History -> string -> Error + N;
  handler_DelUser : History -> string -> option Error;
  handler_AddUser : History -> ProtocolUser -> option Error;
  clock_uptime : History -> Z;       (* time.Now().Sub(p.startAt) / time.Second *)
  clock_unix : History -> Z;         (* time.Now().Unix() *)
  getSystemLoad : History -> string;
  bytefmt_ByteSize : N -> string;    (* code.cloudfoundry.org/bytefmt *)
  (* Go leaves float64 -> uint64 to the platform when the value does not fit *)
  uint64_unrepresentable : float64 -> N
}.

(** The configuration and node the panel was built with. *)
Record Config := mkConfig {
  NodeID : N;
  IgnoreEmptyVmessID : bool;
  TrafficRate : float64;             (* p.node.TrafficRate *)
  cfg_Level : N;                     (* p.UserConfig.Level *)
  cfg_AlterID : N;                   (* p.UserConfig.AlterID *)
  cfg_securityConfig : string;       (* p.UserConfig.securityConfig *)
  (* getInboundConfigByTag(p.UserConfig.InboundTag, ...).Protocol *)
  inbound_Protocol : string
}.

(** The mutable part of [*Panel], with the history of what it did.
    Modelled from the spec: the struct [DB] that holds [RetryTimes] is
    declared outside panel.go; the spec calls it a persistent retry counter,
    taken here as an unbounded integer. *)
Record Panel := mkPanel {
  userModels : list UserModel;       (* p.userModels *)
  RetryTimes : Z;                    (* p.db.RetryTimes *)
  trace : History
}.

(** ** Machine arithmetic *)

Definition two64 : N := 2 ^ 64.

(** [a + b] on uint64. *)
Definition add64 (a b : N) : N := ((a + b) mod two64)%N.

(** [float64(n)] for a uint64 [n]: the nearest binary64, ties to even. *)
Definition float64_of_uint64 (n : N) : float64 :=
  binary_normalize prec64 emax64 (Z.of_N n) 0 false.

(** The integer part of a finite binary64, as a signed integer. *)
Definition float64_trunc (f : float64) : option Z :=
  match f with
  | S754_zero _ => Some 0
  | S754_finite s m e =>
      let a := match e with
               | Zneg k => Z.shiftr (Zpos m) (Zpos k)
               | _ => Z.shiftl (Zpos m) e
               end in
      Some (if s then - a else a)
  | _ => None
  end.

(** [fmt.Sprintf("%d", n)] for an unsigned [n]. *)
Definition fmt_d (n : N) : string := NilEmpty.string_of_uint (N.to_uint n).

(** ** A state monad with a halting outcome *)

Inductive Result (A : Type) :=
| Done (a : A) (p : Panel)
| Halted (p : Panel).
Arguments Done {A} a p.
Arguments Halted {A} p.

Definition M (A : Type) := Panel -> Result A.

Definition ret {A} (a : A) : M A := fun p => Done a p.

Definition bind {A B} (m : M A) (k : A -> M B) : M B :=
  fun p => match m p with
           | Done a p' => k a p'
           | Halted p' => Halted p'
           end.

Notation "x <- m ;; k" := (bind m (fun x => k))
  (at level 61, m at next level, right associativity).
Notation "m ;;; k" := (bind m (fun _ => k))
  (at level 61, right associativity).

Definition get : M Panel := fun p => Done p p.

Definition set_userModels (l : list UserModel) : M unit :=
  fun p => Done tt (mkPanel l (RetryTimes p) (trace p)).

Definition set_RetryTimes (n : Z) : M unit :=
  fun p => Done tt (mkPanel (userModels p) n (trace p)).

Definition emit (e : Event) : M unit :=
  fun p => Done tt (mkPanel (userModels p) (RetryTimes p) (trace p ++ [e])).

(** A call: the collaborator answers from the history before the call, and
    the call joins the history. *)
Definition call {A} (e : Event) (answer : History -> A) : M A :=
  fun p => Done (answer (trace p))
                (mkPanel (userModels p) (RetryTimes p) (trace p ++ [e])).

(** A reading of the clock or the load: no call is recorded. *)
Definition ask {A} (answer : History -> A) : M A :=
  fun p => Done (answer (trace p)) p.

Definition halt {A} : M A := fun p => Halted p.

(** ** The program *)

(** [findUserModelIndex]: the index of the first entry equal to [u], or -1. *)
Fixpoint findUserModelIndex_from (i : Z) (u : UserModel)
         (l : list UserModel) : Z :=
  match l with
  | [] => -1
  | user :: rest =>
      if UserModel_eqb user u then i
      else findUserModelIndex_from (i + 1) u rest
  end.

Definition findUserModelIndex (u : UserModel) (l : list UserModel) : Z :=
  findUserModelIndex_from 0 u l.

Definition inUserModels (u : UserModel) (l : list UserModel) : bool :=
  negb (findUserModelIndex u l =? -1).

(** [append(s[:i], s[i+1:]...)] *)
Definition remove_at (i : Z) (l : list UserModel) : list UserModel :=
  firstn (Z.to_nat i) l ++ skipn (Z.to_nat (i + 1)) l.

Section Program.

Variable w : World.
Variable cfg : Config.

(** [uint64(f)]: the integer part when it fits, the platform's choice when it
    does not. *)
Definition uint64_of_float64 (f : float64) : N :=
  match float64_trunc f with
  | Some z =>
      if (0 <=? z) && (z <? Z.of_N two64) then Z.to_N z
      else uint64_unrepresentable w f
  | None => uint64_unrepresentable w f
  end.

Definition mulTrafficRate (traffic : N) : N :=
  uint64_of_float64
    (SFmul prec64 emax64 (TrafficRate cfg) (float64_of_uint64 traffic)).

Definition convertUser (userModel : UserModel) : ProtocolUser :=
  if String.eqb (inbound_Protocol cfg) "vless" then
    mkProtocolUser (cfg_Level cfg) (Email userModel)
                   (VlessAccount (VmessID userModel))
  else if String.eqb (inbound_Protocol cfg) "trojan" then
    mkProtocolUser (cfg_Level cfg) (Email userModel)
                   (TrojanAccount (VmessID userModel))
  else
    mkProtocolUser (cfg_Level cfg) (Email userModel)
                   (VmessAccount (VmessID userModel) (cfg_AlterID cfg)
                                 (cfg_securityConfig cfg)).

(** Modelled from the spec: the helper [fatal] is declared outside panel.go;
    the spec says a failed add that is not tolerated halts the process.  The
    call is recorded and nothing runs after it. *)
Definition fatal {A} (e : Error) (u : UserModel) : M A :=
  emit (EvFatal e u) ;;; halt.

(** *** getTraffic *)

Definition mkLog (user : UserModel) (uplink downlink : N) : userStatsLogs :=
  mkUserStatsLogs
    (mkUserTrafficLog (ID user) uplink downlink (NodeID cfg)
                      (TrafficRate cfg) EmptyString)
    (Port user).

Fixpoint getTraffic_loop (users : list UserModel) (logs : list userStatsLogs)
  : M (list userStatsLogs * option Error) :=
  match users with
  | [] => ret (logs, None)
  | user :: rest =>
      d <- call (EvGetUserDownlink (Email user))
                (fun h => stats_getUserDownlink w h (Email user)) ;;
      match d with
      | inl err => ret (logs, Some err)
      | inr downlink =>
          u <- call (EvGetUserUplink (Email user))
                    (fun h => stats_getUserUplink w h (Email user)) ;;
          match u with
          | inl err => ret (logs, Some err)
          | inr uplink =>
              if (0 <? add64 uplink downlink)%N
              then getTraffic_loop rest (logs ++ [mkLog user uplink downlink])
              else getTraffic_loop rest logs
          end
      end
  end.

Definition getTraffic : M (list userStatsLogs * option Error) :=
  p <- get ;;
  getTraffic_loop (userModels p) [].

(** *** syncUser *)

(** The loop under [// Delete].  It yields the deleted count and the error
    that made it return, if any. *)
Fixpoint syncUser_delete (dels : list UserModel) (deleted : Z)
  : M (Z * option Error) :=
  match dels with
  | [] => ret (deleted, None)
  | userModel :: rest =>
      p <- get ;;
      let i := findUserModelIndex userModel (userModels p) in
      if i =? -1 then syncUser_delete rest deleted
      else
        set_userModels (remove_at i (userModels p)) ;;;
        r <- call (EvDelUser (Email userModel))
                  (fun h => handler_DelUser w h (Email userModel)) ;;
        match r with
        | Some err => ret (deleted, Some err)
        | None =>
            emit (EvLog Debug (DeletedUser userModel)) ;;;
            syncUser_delete rest (deleted + 1)
        end
  end.

(** The loop under [// Add].  [err] is the named result, assigned by every
    call. *)
Fixpoint syncUser_add (adds : list UserModel) (added : Z) (err : option Error)
  : M (Z * option Error) :=
  match adds with
  | [] => ret (added, err)
  | userModel :: rest =>
      r <- call (EvAddUser (convertUser userModel))
                (fun h => handler_AddUser w h (convertUser userModel)) ;;
      match r with
      | Some e =>
          if IgnoreEmptyVmessID cfg then
            emit (EvLog Warning (AddUserErr e userModel)) ;;;
            syncUser_add rest added (Some e)
          else fatal e userModel
      | None =>
          p <- get ;;
          set_userModels (userModels p ++ [userModel]) ;;;
          emit (EvLog Debug (AddedUser userModel)) ;;;
          syncUser_add rest (added + 1) None
      end
  end.

(** The users to add and to delete, as the two loops under [// Calculate]
    collect them. *)
Definition addUserModels (fetched provisioned : list UserModel) :=
  filter (fun u => negb (inUserModels u provisioned)) fetched.

Definition delUserModels (fetched provisioned : list UserModel) :=
  filter (fun u => negb (inUserModels u fetched)) provisioned.

(** Returns (addedUserCount, deletedUserCount, err). *)
Definition syncUser : M (Z * Z * option Error) :=
  r <- call (EvGetAllUsers (NodeID cfg))
            (fun h => db_GetAllUsers w h (NodeID cfg)) ;;
  match r with
  | inl err => ret (0, 0, Some err)
  | inr fetched =>
      if (List.length fetched =? 0)%nat then ret (0, 0, None)
      else
        p <- get ;;
        let adds := addUserModels fetched (userModels p) in
        let dels := delUserModels fetched (userModels p) in
        d <- syncUser_delete dels 0 ;;
        match snd d with
        | Some err => ret (0, fst d, Some err)
        | None =>
            a <- syncUser_add adds 0 None ;;
            ret (fst a, fst d, snd a)
        end
  end.

(** *** do *)

(** The variables of [do] that its loop over the traffic logs updates. *)
Record Tally := mkTally {
  onlineUsers : Z;
  uplinkTotal : N;
  downlinkTotal : N;
  userIDs : list N;
  uVals : string;
  dVals : string
}.

Definition tally0 : Tally := mkTally 0 0 0 [] EmptyString EmptyString.

Definition uClause (id delta : N) : string :=
  (" WHEN " ++ fmt_d id ++ " THEN u + " ++ fmt_d delta)%string.

Definition dClause (id delta : N) : string :=
  (" WHEN " ++ fmt_d id ++ " THEN d + " ++ fmt_d delta)%string.

(** The row [do] creates for [log]: the log with its [Traffic] filled in. *)
Definition withTraffic (l : UserTrafficLog) : UserTrafficLog :=
  mkUserTrafficLog (UserID l) (Uplink l) (Downlink l) (log_NodeID l) (Rate l)
    (bytefmt_ByteSize w
       (add64 (mulTrafficRate (Uplink l)) (mulTrafficRate (Downlink l)))).

Definition tally_step (t : Tally) (l : UserTrafficLog) : Tally :=
  mkTally
    (if (2048 <? add64 (Uplink l) (Downlink l))%N
     then onlineUsers t + 1 else onlineUsers t)
    (add64 (uplinkTotal t) (Uplink l))
    (add64 (downlinkTotal t) (Downlink l))
    (userIDs t ++ [UserID l])
    (uVals t ++ uClause (UserID l) (mulTrafficRate (Uplink l)))
    (dVals t ++ dClause (UserID l) (mulTrafficRate (Downlink l))).

Fixpoint do_logs (logs : list userStatsLogs) (t : Tally) : M Tally :=
  match logs with
  | [] => ret t
  | log :: rest =>
      let row := withTraffic (embedded log) in
      call (EvCreateUserTrafficLog row)
           (fun h => db_CreateUserTrafficLog w h row) ;;;
      do_logs rest (tally_step t (embedded log))
  end.

Definition nonempty (s : string) : bool :=
  match s with EmptyString => false | _ => true end.

(** [do] from the line after [getTraffic] to its last line: the loop over the
    logs, the online snapshot, the bulk update and [syncUser], whose error is
    assigned and not returned. *)
Definition do_account (logs : list userStatsLogs)
  : M (option Error * (Z * Z * Tally)) :=
  t <- do_logs logs tally0 ;;
  (if 0 <? onlineUsers t then
     let row := mkNodeOnlineLog (NodeID cfg) (onlineUsers t) in
     call (EvCreateNodeOnlineLog row)
          (fun h => db_CreateNodeOnlineLog w h row) ;;; ret tt
   else ret tt) ;;;
  (if nonempty (uVals t) && nonempty (dVals t) then
     now <- ask (clock_unix w) ;;
     let upd := mkTotalsUpdate (userIDs t)
                  ("CASE id " ++ uVals t ++ " END")
                  ("CASE id " ++ dVals t ++ " END") now in
     call (EvUpdates upd) (fun h => db_Updates w h upd) ;;; ret tt
   else ret tt) ;;;
  s <- syncUser ;;
  ret (None, (fst (fst s), snd (fst s), t)).

(** The body of [do] after the [defer]: its return value and the values the
    deferred summary reads. *)
Definition do_body : M (option Error * (Z * Z * Tally)) :=
  up <- ask (clock_uptime w) ;;
  ld <- ask (getSystemLoad w) ;;
  let info := mkNodeInfo (NodeID cfg) up ld in
  r <- call (EvCreateNodeInfo info) (fun h => db_CreateNodeInfo w h info) ;;
  match r with
  | Some err => ret (Some err, (0, 0, tally0))
  | None =>
      t <- getTraffic ;;
      match snd t with
      | Some err => ret (Some err, (0, 0, tally0))
      | None => do_account (fst t)
      end
  end.

Definition do : M (option Error) :=
  r <- call EvPing (db_Ping w) ;;
  match r with
  | Some _ =>
      p <- get ;;
      set_RetryTimes (RetryTimes p + 1) ;;;
      emit (EvLog Debug (LostDb (RetryTimes p + 1))) ;;;
      ret None
  | None =>
      set_RetryTimes 0 ;;;
      b <- do_body ;;
      let '(err, (added, deleted, t)) := b in
      emit (EvLog Debug
              (Summary added deleted
                 (bytefmt_ByteSize w (downlinkTotal t))
                 (bytefmt_ByteSize w (uplinkTotal t))
                 (onlineUsers t))) ;;;
      ret err
  end.

End Program.

(** ** Concrete collaborators and users, for running the program *)

Definition alice : UserModel := mkUserModel 1 "uuid-a" "alice@x" 10001.
Definition bob : UserModel := mkUserModel 2 "uuid-b" "bob@x" 10002.
(** [alice] after a credential rotation: one field differs. *)
Definition alice' : UserModel := mkUserModel 1 "uuid-a2" "alice@x" 10001.

(** 2.0 and 1.0 as binary64. *)
Definition rate_2 : float64 := Eval cbv in float64_of_uint64 2.
Definition rate_1 : float64 := Eval cbv in float64_of_uint64 1.

Definition config (tolerant : bool) (rate : float64) : Config :=
  mkConfig 7 tolerant rate 0 2 "auto" "vmess".

(** A world given by what the database lists and by which calls fail; every
    other call succeeds, and every user shows [up]/[down] bytes of traffic. *)
Definition world (ping : option Error) (fetched : Error + list UserModel)
           (stats : string -> Error + N * N)
           (del add : string -> option Error) (writes : option Error)
  : World :=
  mkWorld (fun _ => ping) (fun _ _ => None) (fun _ _ => writes)
          (fun _ _ => writes) (fun _ _ => writes)
          (fun _ _ => fetched)
          (fun _ e => match stats e with inl x => inl x | inr ud => inr (snd ud) end)
          (fun _ e => match stats e with inl x => inl x | inr ud => inr (fst ud) end)
          (fun _ e => del e) (fun _ u => add (user_Email u))
          (fun h => Z.of_nat (List.length h)) (fun h => 1700000000 + Z.of_nat (List.length h))
          (fun _ => "0.00 0.00 0.00"%string)
          (fun n => (fmt_d n ++ "B")%string)
          (fun _ => 0%N).

Definition no_traffic : string -> Error + N * N := fun _ => inr (0, 0)%N.
Definition all_ok : string -> option Error := fun _ => None.
Definition all_fail : string -> option Error := fun _ => Some "rpc error"%string.

Definition start (provisioned : list UserModel) : Panel :=
  mkPanel provisioned 0 [].

(** The database lists no user. *)
Definition world_empty_fetch : World :=
  world None (inr []) no_traffic all_ok all_ok None.

(** The database lists [alice] with a new credential, and [bob]. *)
Definition world_rotation : World :=
  world None (inr [alice'; bob]) no_traffic all_ok all_ok None.

(** A handler that refuses to remove [bob] and accepts everything else. *)
Definition world_del_bob_fails : World :=
  world None (inr [alice']) no_traffic
        (fun e => if String.eqb e "bob@x" then Some "rpc error"%string else None)
        all_ok None.

(** A handler that refuses to add [bob] and accepts everything else. *)
Definition world_add_bob_fails : World :=
  world None (inr [bob; alice]) no_traffic all_ok
        (fun e => if String.eqb e "bob@x" then Some "bad id"%string else None)
        None.

(** The database does not answer the ping. *)
Definition world_db_down : World :=
  world (Some "connection refused"%string) (inr [bob]) no_traffic all_ok all_ok
        None.

(** Stats reads fail for [bob] and give 5 bytes each way for everyone else. *)
Definition world_stats_fail : World :=
  world None (inr [alice])
        (fun e => if String.eqb e "bob@x" then inl "stats down"%string
                  else inr (5, 5)%N)
        all_ok all_ok None.

(** Every add and every database write after the heartbeat fails; failures
    are tolerated. *)
Definition world_all_broken : World :=
  world None (inr [bob]) (fun _ => inr (3000, 100)%N) all_fail all_fail
        (Some "write failed"%string).

(** Two users with traffic; everything succeeds. *)
Definition world_traffic : World :=
  world None (inr [alice; bob])
        (fun e => if String.eqb e "alice@x" then inr (1500, 700)%N
                  else inr (100, 50)%N)
        all_ok all_ok None.

(** ** Vocabulary for histories *)

(** What a run of removals that all succeed leaves in the history. *)
Definition del_events (ds : list UserModel) : list Event :=
  flat_map (fun d => [EvDelUser (Email d); EvLog Debug (DeletedUser d)]) ds.


Definition is_del_call (e : Event) : bool :=
  match e with EvDelUser _ => true | _ => false end.

Definition is_add_call (e : Event) : bool :=
  match e with EvAddUser _ => true | _ => false end.


Definition is_stats_read (e : Event) : bool :=
  match e with EvGetUserDownlink _ | EvGetUserUplink _ => true | _ => false end.

(** The events the loop under [// Add] can leave. *)
Definition is_add_phase_event (e : Event) : bool :=
  match e with
  | EvAddUser _ | EvLog _ _ | EvFatal _ _ => true
  | _ => false
  end.

(** What one attempted addition leaves, by the answer [r] it got, when
    failures are tolerated. *)
Definition attempt_events (cfg : Config) (r : option Error) (u : UserModel)
  : list Event :=
  match r with
  | None => [EvAddUser (convertUser cfg u); EvLog Debug (AddedUser u)]
  | Some e => [EvAddUser (convertUser cfg u); EvLog Warning (AddUserErr e u)]
  end.

Definition succeeded (r : option Error) : bool :=
  match r with None => true | Some _ => false end.

(** The events reconciliation can leave: the fetch, removals, additions,
    log lines and the fatal stop. *)
Definition is_sync_event (e : Event) : bool :=
  match e with
  | EvGetAllUsers _ | EvDelUser _ | EvAddUser _ | EvLog _ _ | EvFatal _ _ => true
  | _ => false
  end.

(** The error a stats read got, if it got one. *)
Definition read_error (w : World) (h : History) (e : Event) : option Error :=
  match e with
  | EvGetUserDownlink m =>
      match stats_getUserDownlink w h m with inl x => Some x | inr _ => None end
  | EvGetUserUplink m =>
      match stats_getUserUplink w h m with inl x => Some x | inr _ => None end
  | _ => None
  end.

(** Joining strings, as repeated [+=] does. *)
Definition join (l : list string) : string := fold_right String.append EmptyString l.

(** The tally [do] reaches after its loop over [logs]. *)
Definition tally_of (w : World) (cfg : Config) (logs : list userStatsLogs)
  : Tally :=
  fold_left (tally_step w cfg) (map embedded logs) tally0.

(** The rows the loop of [do] creates. *)
Definition row_events (w : World) (cfg : Config) (logs : list userStatsLogs)
  : list Event :=
  map (fun l => EvCreateUserTrafficLog (withTraffic w cfg (embedded l))) logs.

(** The online snapshot, when [do] writes one. *)
Definition online_events (cfg : Config) (t : Tally) : list Event :=
  if 0 <? onlineUsers t
  then [EvCreateNodeOnlineLog (mkNodeOnlineLog (NodeID cfg) (onlineUsers t))]
  else [].

(** The bulk update, when [do] issues one, at history [h]. *)
Definition update_events (w : World) (h : History) (t : Tally) : list Event :=
  if nonempty (uVals t) && nonempty (dVals t)
  then [EvUpdates (mkTotalsUpdate (userIDs t)
                     ("CASE id " ++ uVals t ++ " END")
                     ("CASE id " ++ dVals t ++ " END") (clock_unix w h))]
  else [].

(** Everything [do] leaves between [getTraffic] and [syncUser], from history
    [h]. *)
Definition account_events (w : World) (cfg : Config) (h : History)
           (logs : list userStatsLogs) : list Event :=
  let t := tally_of w cfg logs in
  row_events w cfg logs ++ online_events cfg t
  ++ update_events w (h ++ row_events w cfg logs ++ online_events cfg t) t.

(** The deferred summary line. *)
Definition summary (w : World) (added deleted : Z) (t : Tally) : Event :=
  EvLog Debug (Summary added deleted
                 (bytefmt_ByteSize w (downlinkTotal t))
                 (bytefmt_ByteSize w (uplinkTotal t))
                 (onlineUsers t)).

(** The heartbeat row [do] writes at history [h]. *)
Definition heartbeat (w : World) (cfg : Config) (h : History) : NodeInfo :=
  mkNodeInfo (NodeID cfg) (clock_uptime w h) (getSystemLoad w h).

(** What [do] does on its way out once the [defer] is registered: the summary
    line, then the return value. *)
Definition deferred (w : World) (r : Result (option Error * (Z * Z * Tally)))
  : Result (option Error) :=
  match r with
  | Done (err, (added, deleted, t)) p =>
      Done err (mkPanel (userModels p) (RetryTimes p)
                        (trace p ++ [summary w added deleted t]))
  | Halted p => Halted p
  end.

(** The panel a computation stops in, returned or halted. *)
Definition final {A} (r : Result A) : Panel :=
  match r with Done _ p => p | Halted p => p end.

(** [p] with other users and [evs] more in its history. *)
Definition after (p : Panel) (users : list UserModel) (evs : list Event)
  : Panel :=
  mkPanel users (RetryTimes p) (trace p ++ evs).

(** The entries of [l] that [keep] rejects. *)
Definition rejected (keep : UserModel -> bool) (l : list UserModel) :=
  filter (fun u => negb (keep u)) l.

(** Membership in the fetched list, as [syncUser] tests it. *)
Definition kept (fetched : list UserModel) (u : UserModel) : bool :=
  inUserModels u fetched.

(** A halt is the fatal stop: the last call was an addition that failed, and
    failures are not tolerated. *)
Definition fatal_stop (w : World) (cfg : Config) {A} (r : Result A) : Prop :=
  IgnoreEmptyVmessID cfg = false
  /\ exists h e u,
      r = Halted (mkPanel (userModels (final r)) (RetryTimes (final r))
                          (h ++ [EvAddUser (convertUser cfg u); EvFatal e u]))
      /\ handler_AddUser w h (convertUser cfg u) = Some e.

(** The state [do] is in when it calls [getTraffic]. *)
Definition at_traffic (w : World) (cfg : Config) (p : Panel) : Panel :=
  mkPanel (userModels p) 0
          (trace p ++ [EvPing; EvCreateNodeInfo (heartbeat w cfg (trace p ++ [EvPing]))]).

(** The ping and the heartbeat both succeed. *)
Definition reaches_traffic (w : World) (cfg : Config) (p : Panel) : Prop :=
  db_Ping w (trace p) = None
  /\ db_CreateNodeInfo w (trace p ++ [EvPing])
                       (heartbeat w cfg (trace p ++ [EvPing])) = None.


(** A stats read fails while [getTraffic] goes through [users] from history
    [h]: the reads of the users before succeed, and then a downlink read or an
    uplink read gets the error [e]. *)
Inductive read_fails (w : World) : History -> list UserModel -> Error -> Prop :=
| downlink_fails h u rest e :
    stats_getUserDownlink w h (Email u) = inl e ->
    read_fails w h (u :: rest) e
| uplink_fails h u rest down e :
    stats_getUserDownlink w h (Email u) = inr down ->
    stats_getUserUplink w (h ++ [EvGetUserDownlink (Email u)]) (Email u) = inl e ->
    read_fails w h (u :: rest) e
| later_fails h u rest down up e :
    stats_getUserDownlink w h (Email u) = inr down ->
    stats_getUserUplink w (h ++ [EvGetUserDownlink (Email u)]) (Email u) = inr up ->
    read_fails w (h ++ [EvGetUserDownlink (Email u); EvGetUserUplink (Email u)])
               rest e ->
    read_fails w h (u :: rest) e.

(** Stats by label: [alice] 1500 up and 700 down, [bob] idle, and a user
    whose two counts add up to 2^64. *)
Definition carol : UserModel := mkUserModel 3 "uuid-c" "carol@x" 10003.
Definition up_by_label (m : string) : N :=
  if String.eqb m "alice@x" then 1500
  else if String.eqb m "carol@x" then 2 ^ 63 else 0.
Definition down_by_label (m : string) : N :=
  if String.eqb m "alice@x" then 700
  else if String.eqb m "carol@x" then 2 ^ 63 else 0.
Definition world_by_label : World :=
  world None (inr [alice; bob; carol])
        (fun m => inr (up_by_label m, down_by_label m)) all_ok all_ok None.

(** The database answers the ping and the writes but not the fetch. *)
Definition world_fetch_fails : World :=
  world None (inl "query failed"%string) no_traffic all_ok all_ok None.

(** The database answers the ping and refuses every write. *)
Definition world_no_writes : World :=
  mkWorld (fun _ => None) (fun _ _ => Some "read-only"%string)
          (fun _ _ => Some "read-only"%string) (fun _ _ => Some "read-only"%string)
          (fun _ _ => Some "read-only"%string) (fun _ _ => inr [bob])
          (fun _ _ => inr 9%N) (fun _ _ => inr 9%N)
          (fun _ _ => None) (fun _ _ => None)
          (fun _ => 60) (fun _ => 1700000000)
          (fun _ => "0.10 0.20 0.30"%string)
          (fun n => (fmt_d n ++ "B")%string) (fun _ => 0%N).

(** ** Vocabulary for the further properties *)

(** The reads [getTraffic] issues for [users] when none fails. *)
Definition read_events (users : list UserModel) : list Event :=
  flat_map (fun u => [EvGetUserDownlink (Email u); EvGetUserUplink (Email u)])
           users.

(** A rate that is a number: zero or finite, not an infinity or a NaN. *)
Definition is_number (f : float64) : bool :=
  match f with
  | S754_zero _ | S754_finite _ _ _ => true
  | _ => false
  end.

Definition is_online_snapshot (e : Event) : bool :=
  match e with EvCreateNodeOnlineLog _ => true | _ => false end.

(** The writes of the accounting part of [do]: rows, snapshot, bulk update. *)
Definition is_accounting_write (e : Event) : bool :=
  match e with
  | EvCreateUserTrafficLog _ | EvCreateNodeOnlineLog _ | EvUpdates _ => true
  | _ => false
  end.

Definition is_admin_call (e : Event) : bool := is_del_call e || is_add_call e.

(** The sum of a list of byte counts, without wrap-around. *)
Definition total (l : list N) : N := fold_right N.add 0%N l.

(** A log whose raw traffic counts as online. *)
Definition is_online (l : UserTrafficLog) : bool :=
  (2048 <? add64 (Uplink l) (Downlink l))%N.

(** * Properties *)

(** ** Equality and search in the provisioned list *)

Lemma UserModel_eqb_eq (a b : UserModel) : UserModel_eqb a b = true <-> a = b.
Proof.
  unfold UserModel_eqb. destruct a as [i v e p], b as [i' v' e' p']; simpl.
  rewrite !andb_true_iff, N.eqb_eq, !String.eqb_eq, Z.eqb_eq.
  split.
  - intros [[[-> ->] ->] ->]. reflexivity.
  - intros H. injection H as -> -> -> ->. auto.
Qed.

Lemma UserModel_eqb_refl (a : UserModel) : UserModel_eqb a a = true.
Proof. apply UserModel_eqb_eq. reflexivity. Qed.

Lemma UserModel_eqb_neq (a b : UserModel) : a <> b -> UserModel_eqb a b = false.
Proof.
  intros H. destruct (UserModel_eqb a b) eqn:E; [|reflexivity].
  apply UserModel_eqb_eq in E. contradiction.
Qed.

Lemma UserModel_eq_dec (a b : UserModel) : {a = b} + {a <> b}.
Proof.
  destruct (UserModel_eqb a b) eqn:E.
  - left. apply UserModel_eqb_eq. exact E.
  - right. intros H. apply UserModel_eqb_eq in H. congruence.
Defined.

Lemma find_from_lower (u : UserModel) (l : list UserModel) :
  forall i, 0 <= i ->
    findUserModelIndex_from i u l = -1 \/ i <= findUserModelIndex_from i u l.
Proof.
  induction l as [|a l IH]; intros i Hi; simpl.
  - left. reflexivity.
  - destruct (UserModel_eqb a u).
    + right. lia.
    + destruct (IH (i + 1)) as [H|H]; [lia| |]; [left; exact H | right; lia].
Qed.

Lemma find_from_absent (u : UserModel) (l : list UserModel) :
  forall i, 0 <= i -> (findUserModelIndex_from i u l = -1 <-> ~ In u l).
Proof.
  induction l as [|a l IH]; intros i Hi; simpl.
  - tauto.
  - destruct (UserModel_eqb a u) eqn:E.
    + apply UserModel_eqb_eq in E. split; [lia | intros H; exfalso; auto].
    + rewrite (IH (i + 1)) by lia.
      split.
      * intros H [H1|H1]; [|auto].
        subst a. rewrite UserModel_eqb_refl in E. discriminate.
      * intros H H1. apply H. right. exact H1.
Qed.

Lemma find_from_first (u : UserModel) (pre post : list UserModel) :
  ~ In u pre ->
  forall i, findUserModelIndex_from i u (pre ++ u :: post)
            = i + Z.of_nat (List.length pre).
Proof.
  induction pre as [|a pre IH]; intros Hn i; simpl.
  - rewrite UserModel_eqb_refl. lia.
  - rewrite UserModel_eqb_neq by (intros ->; apply Hn; left; reflexivity).
    rewrite IH by (intros H; apply Hn; right; exact H). lia.
Qed.

Lemma inUserModels_In (u : UserModel) (l : list UserModel) :
  inUserModels u l = true <-> In u l.
Proof.
  unfold inUserModels, findUserModelIndex.
  rewrite negb_true_iff, Z.eqb_neq, (find_from_absent u l 0) by lia.
  destruct (in_dec UserModel_eq_dec u l); tauto.
Qed.

Lemma inUserModels_not_In (u : UserModel) (l : list UserModel) :
  inUserModels u l = false <-> ~ In u l.
Proof.
  rewrite <- inUserModels_In. destruct (inUserModels u l); split; congruence.
Qed.

Lemma remove_at_middle (pre post : list UserModel) (u : UserModel) :
  remove_at (Z.of_nat (List.length pre)) (pre ++ u :: post) = pre ++ post.
Proof.
  unfold remove_at.
  replace (Z.to_nat (Z.of_nat (List.length pre) + 1)) with (S (List.length pre)) by lia.
  rewrite Nat2Z.id.
  induction pre as [|a pre IH]; simpl; [reflexivity|].
  f_equal. exact IH.
Qed.

(** Membership in the users to add and to delete. *)
Lemma addUserModels_In (fetched provisioned : list UserModel) (u : UserModel) :
  In u (addUserModels fetched provisioned) <-> In u fetched /\ ~ In u provisioned.
Proof.
  unfold addUserModels. rewrite filter_In, negb_true_iff, inUserModels_not_In.
  tauto.
Qed.

Lemma delUserModels_In (fetched provisioned : list UserModel) (u : UserModel) :
  In u (delUserModels fetched provisioned) <-> In u provisioned /\ ~ In u fetched.
Proof.
  unfold delUserModels. rewrite filter_In, negb_true_iff, inUserModels_not_In.
  tauto.
Qed.


(** ** The loops of [syncUser] *)

Ltac run :=
  cbn [syncUser_delete syncUser_add getTraffic_loop do_logs bind get ret call
       emit ask halt fatal set_userModels set_RetryTimes userModels RetryTimes
       trace fst snd final after].

Section Loops.

Variable w : World.
Variable cfg : Config.

Lemma panel_eta (p : Panel) : mkPanel (userModels p) (RetryTimes p) (trace p) = p.
Proof. destruct p; reflexivity. Qed.

Lemma after_nil (p : Panel) : after p (userModels p) [] = p.
Proof. unfold after. rewrite app_nil_r. apply panel_eta. Qed.

Lemma rejected_keep (keep : UserModel -> bool) a l :
  keep a = true ->
  rejected keep (a :: l) = rejected keep l /\ filter keep (a :: l) = a :: filter keep l.
Proof. intros K. unfold rejected. simpl. rewrite K. split; reflexivity. Qed.

Lemma rejected_drop (keep : UserModel -> bool) a l :
  keep a = false ->
  rejected keep (a :: l) = a :: rejected keep l /\ filter keep (a :: l) = filter keep l.
Proof. intros K. unfold rejected. simpl. rewrite K. split; reflexivity. Qed.

(** The removal loop, run on the users of [l] that [keep] rejects, when the
    provisioned list is [pre ++ l] and [pre] is kept: either every call
    succeeds and exactly the rejected users are gone, or the first failing
    call ends the loop. *)
Lemma syncUser_delete_run (keep : UserModel -> bool) (l : list UserModel) :
  forall (pre : list UserModel) (n : Z) (p : Panel),
    userModels p = pre ++ l ->
    Forall (fun u => keep u = true) pre ->
    syncUser_delete w (rejected keep l) n p
    = Done (n + Z.of_nat (List.length (rejected keep l)), None)
           (after p (pre ++ filter keep l) (del_events (rejected keep l)))
    \/ exists l1 d l2 e,
        l = l1 ++ d :: l2 /\ keep d = false /\
        handler_DelUser w (trace p ++ del_events (rejected keep l1)) (Email d)
        = Some e /\
        syncUser_delete w (rejected keep l) n p
        = Done (n + Z.of_nat (List.length (rejected keep l1)), Some e)
               (after p (pre ++ filter keep l1 ++ l2)
                      (del_events (rejected keep l1) ++ [EvDelUser (Email d)])).
Proof.
  induction l as [|a l IH]; intros pre n p Hp Hpre.
  - left. simpl. unfold ret. rewrite app_nil_r, Z.add_0_r.
    rewrite app_nil_r in Hp. rewrite <- Hp, after_nil. reflexivity.
  - destruct (keep a) eqn:Ka.
    + destruct (rejected_keep keep a l Ka) as [-> ->].
      destruct (IH (pre ++ [a]) n p) as [H|(l1 & d & l2 & e & Hl & Kd & He & H)].
      * rewrite <- app_assoc. exact Hp.
      * apply Forall_app. split; [exact Hpre|]. constructor; [exact Ka|constructor].
      * left. rewrite H. rewrite <- app_assoc. reflexivity.
      * right. exists (a :: l1), d, l2, e.
        destruct (rejected_keep keep a l1 Ka) as [-> ->].
        split; [rewrite Hl; reflexivity|].
        split; [exact Kd|]. split; [exact He|].
        rewrite H. rewrite <- !app_assoc. reflexivity.
    + destruct (rejected_drop keep a l Ka) as [-> ->].
      assert (Hnot : ~ In a pre).
      { intros Hin. rewrite Forall_forall in Hpre. apply Hpre in Hin. congruence. }
      run. rewrite Hp. unfold findUserModelIndex.
      rewrite find_from_first by exact Hnot. rewrite Z.add_0_l.
      destruct (Z.of_nat (List.length pre) =? -1) eqn:E; [apply Z.eqb_eq in E; lia|].
      rewrite remove_at_middle. run.
      destruct (handler_DelUser w (trace p) (Email a)) as [e|] eqn:Hd; run.
      * right. exists [], a, l, e. simpl. rewrite app_nil_r, Z.add_0_r.
        split; [reflexivity|]. split; [exact Ka|]. split; [exact Hd|].
        reflexivity.
      * set (p1 := mkPanel (pre ++ l) (RetryTimes p)
                          ((trace p ++ [EvDelUser (Email a)])
                             ++ [EvLog Debug (DeletedUser a)])).
        destruct (IH pre (n + 1) p1) as [H|(l1 & d & l2 & e & Hl & Kd & He & H)];
          [reflexivity | exact Hpre | |].
        -- left. rewrite H. f_equal.
           ++ f_equal. simpl List.length. lia.
           ++ unfold after, p1. simpl. rewrite <- !app_assoc. reflexivity.
        -- right. exists (a :: l1), d, l2, e.
           destruct (rejected_drop keep a l1 Ka) as [-> ->].
           split; [rewrite Hl; reflexivity|]. split; [exact Kd|]. split.
           ++ rewrite <- He. unfold p1. simpl. rewrite <- !app_assoc. reflexivity.
           ++ rewrite H. f_equal.
              ** f_equal. simpl List.length. lia.
              ** unfold after, p1. simpl. rewrite <- !app_assoc. reflexivity.
Qed.


(** One iteration of the addition loop, by the answer of the call. *)
Lemma syncUser_add_success (u : UserModel) (rest : list UserModel)
      (n : Z) (err : option Error) (p : Panel) :
  handler_AddUser w (trace p) (convertUser cfg u) = None ->
  syncUser_add w cfg (u :: rest) n err p
  = syncUser_add w cfg rest (n + 1) None
      (after p (userModels p ++ [u])
             [EvAddUser (convertUser cfg u); EvLog Debug (AddedUser u)]).
Proof.
  intros H. run. rewrite H. run. unfold after.
  rewrite <- !app_assoc. reflexivity.
Qed.

Lemma syncUser_add_tolerated (u : UserModel) (rest : list UserModel)
      (n : Z) (err : option Error) (p : Panel) (e : Error) :
  handler_AddUser w (trace p) (convertUser cfg u) = Some e ->
  IgnoreEmptyVmessID cfg = true ->
  syncUser_add w cfg (u :: rest) n err p
  = syncUser_add w cfg rest n (Some e)
      (after p (userModels p)
             [EvAddUser (convertUser cfg u); EvLog Warning (AddUserErr e u)]).
Proof.
  intros H Ht. run. rewrite H, Ht. run. unfold after.
  rewrite <- !app_assoc. reflexivity.
Qed.

Lemma syncUser_add_fatal (u : UserModel) (rest : list UserModel)
      (n : Z) (err : option Error) (p : Panel) (e : Error) :
  handler_AddUser w (trace p) (convertUser cfg u) = Some e ->
  IgnoreEmptyVmessID cfg = false ->
  syncUser_add w cfg (u :: rest) n err p
  = Halted (after p (userModels p)
                  [EvAddUser (convertUser cfg u); EvFatal e u]).
Proof.
  intros H Ht. run. rewrite H, Ht. run. unfold after.
  rewrite <- !app_assoc. reflexivity.
Qed.

(** The addition loop in general: it leaves only events of its own, never
    touches the retry counter, and either returns or stops at a failed call
    that the configuration does not tolerate. *)
Lemma syncUser_add_outcome (adds : list UserModel) :
  forall (n : Z) (err : option Error) (p : Panel),
    let r := syncUser_add w cfg adds n err p in
    (exists evs, trace (final r) = trace p ++ evs
                 /\ Forall (fun e => is_add_phase_event e = true) evs)
    /\ RetryTimes (final r) = RetryTimes p
    /\ ((exists a p', r = Done a p')
        \/ (IgnoreEmptyVmessID cfg = false
            /\ exists h e u, r = Halted (mkPanel (userModels (final r))
                                                (RetryTimes p)
                                                (h ++ [EvAddUser (convertUser cfg u);
                                                       EvFatal e u]))
                             /\ In u adds
                             /\ handler_AddUser w h (convertUser cfg u) = Some e)).
Proof.
  induction adds as [|a adds IH]; intros n err p r.
  - subst r. simpl. unfold ret. simpl. split; [|split].
    + exists []. rewrite app_nil_r. split; [reflexivity|constructor].
    + reflexivity.
    + left. eauto.
  - destruct (handler_AddUser w (trace p) (convertUser cfg a)) as [e|] eqn:Ha.
    + destruct (IgnoreEmptyVmessID cfg) eqn:Ht.
      * subst r. rewrite (syncUser_add_tolerated _ _ _ _ _ _ Ha Ht).
        destruct (IH n (Some e) (after p (userModels p)
                   [EvAddUser (convertUser cfg a); EvLog Warning (AddUserErr e a)]))
          as ((evs & Hev & Hall) & Hr & Hout).
        split; [|split].
        -- eexists. split.
           ++ rewrite Hev. unfold after. simpl. rewrite <- app_assoc. reflexivity.
           ++ simpl. repeat constructor. exact Hall.
        -- rewrite Hr. reflexivity.
        -- destruct Hout as [Hd|(Hf & _)]; [left; exact Hd | congruence].
      * subst r. rewrite (syncUser_add_fatal _ _ _ _ _ _ Ha Ht). simpl.
        split; [|split].
        -- eexists. split; [reflexivity|]. repeat constructor.
        -- reflexivity.
        -- right. split; [reflexivity|]. exists (trace p), e, a.
           split; [reflexivity|]. split; [left; reflexivity | exact Ha].
    + subst r. rewrite (syncUser_add_success _ _ _ _ _ Ha).
      destruct (IH (n + 1) None (after p (userModels p ++ [a])
                 [EvAddUser (convertUser cfg a); EvLog Debug (AddedUser a)]))
        as ((evs & Hev & Hall) & Hr & Hout).
      split; [|split].
      * eexists. split.
        -- rewrite Hev. unfold after. simpl. rewrite <- app_assoc. reflexivity.
        -- simpl. repeat constructor. exact Hall.
      * rewrite Hr. reflexivity.
      * destruct Hout as [Hd|(Hf & h & e & u & Hh & Hin & Hu)]; [left; exact Hd|].
        right. split; [exact Hf|]. exists h, e, u.
        split; [exact Hh|]. split; [right; exact Hin | exact Hu].
Qed.

(** The addition loop against a handler whose answer depends on the payload
    only, when failures are tolerated: every scheduled user is attempted once,
    in order; the users whose call succeeded are appended and counted. *)
Lemma syncUser_add_tolerant (answer : ProtocolUser -> option Error)
      (adds : list UserModel) :
  (forall h x, handler_AddUser w h x = answer x) ->
  IgnoreEmptyVmessID cfg = true ->
  forall (n : Z) (err : option Error) (p : Panel),
    let good := filter (fun u => succeeded (answer (convertUser cfg u))) adds in
    syncUser_add w cfg adds n err p
    = Done (n + Z.of_nat (List.length good),
            fold_left (fun _ u => answer (convertUser cfg u)) adds err)
           (after p (userModels p ++ good)
                  (flat_map (fun u => attempt_events cfg
                                        (answer (convertUser cfg u)) u) adds)).
Proof.
  intros Hans Ht. induction adds as [|a adds IH]; intros n err p; cbv zeta.
  - simpl. unfold ret. rewrite Z.add_0_r, app_nil_r, after_nil. reflexivity.
  - destruct (answer (convertUser cfg a)) as [e|] eqn:Ha.
    + rewrite (syncUser_add_tolerated a adds n err p e) by (try rewrite Hans; auto).
      rewrite IH. simpl. rewrite Ha. simpl. f_equal.
      unfold after. simpl. rewrite <- !app_assoc. reflexivity.
    + rewrite (syncUser_add_success a adds n err p) by (try rewrite Hans; auto).
      rewrite IH. simpl. rewrite Ha. simpl. f_equal.
      * f_equal. lia.
      * unfold after. simpl. rewrite <- !app_assoc. reflexivity.
Qed.

End Loops.

(** ** Reconciliation: [syncUser] *)

Section Reconciliation.

Variable w : World.
Variable cfg : Config.

Lemma kept_In (fetched : list UserModel) (u : UserModel) :
  kept fetched u = true <-> In u fetched.
Proof. apply inUserModels_In. Qed.

Lemma filter_kept_In (fetched l : list UserModel) (u : UserModel) :
  In u (filter (kept fetched) l) <-> In u l /\ In u fetched.
Proof. rewrite filter_In, kept_In. tauto. Qed.

Lemma nonempty_length (fetched : list UserModel) :
  fetched <> [] -> (List.length fetched =? 0)%nat = false.
Proof. destruct fetched; [congruence | reflexivity]. Qed.

(** [syncUser] past its two early returns. *)
Lemma syncUser_fetched (p : Panel) (fetched : list UserModel) :
  db_GetAllUsers w (trace p) (NodeID cfg) = inr fetched ->
  fetched <> [] ->
  syncUser w cfg p
  = (d <- syncUser_delete w (delUserModels fetched (userModels p)) 0 ;;
     match snd d with
     | Some err => ret (0, fst d, Some err)
     | None =>
         a <- syncUser_add w cfg (addUserModels fetched (userModels p)) 0 None ;;
         ret (fst a, fst d, snd a)
     end)
      (after p (userModels p) [EvGetAllUsers (NodeID cfg)]).
Proof.
  intros Hget Hne. unfold syncUser. run. rewrite Hget.
  rewrite (nonempty_length _ Hne). run. reflexivity.
Qed.

(** The empty fetch returns at once. *)
Lemma syncUser_empty (p : Panel) :
  db_GetAllUsers w (trace p) (NodeID cfg) = inr [] ->
  syncUser w cfg p
  = Done (0, 0, None) (after p (userModels p) [EvGetAllUsers (NodeID cfg)]).
Proof. intros Hget. unfold syncUser. run. rewrite Hget. reflexivity. Qed.

Lemma delUserModels_rejected (fetched l : list UserModel) :
  delUserModels fetched l = rejected (kept fetched) l.
Proof. reflexivity. Qed.

(** The removal phase of [syncUser], from the state after the fetch. *)
Lemma syncUser_delete_phase (p : Panel) (fetched : list UserModel) :
  let p0 := after p (userModels p) [EvGetAllUsers (NodeID cfg)] in
  let dels := delUserModels fetched (userModels p) in
  syncUser_delete w dels 0 p0
  = Done (Z.of_nat (List.length dels), None)
         (after p (filter (kept fetched) (userModels p))
                (EvGetAllUsers (NodeID cfg) :: del_events dels))
  \/ exists l1 d l2 e,
      userModels p = l1 ++ d :: l2 /\ ~ In d fetched /\
      handler_DelUser w
        (trace p ++ EvGetAllUsers (NodeID cfg)
                 :: del_events (delUserModels fetched l1)) (Email d) = Some e /\
      syncUser_delete w dels 0 p0
      = Done (Z.of_nat (List.length (delUserModels fetched l1)), Some e)
             (after p (filter (kept fetched) l1 ++ l2)
                    (EvGetAllUsers (NodeID cfg)
                       :: del_events (delUserModels fetched l1)
                       ++ [EvDelUser (Email d)])).
Proof.
  intros p0 dels.
  destruct (syncUser_delete_run w (kept fetched) (userModels p) [] 0 p0)
    as [H|(l1 & d & l2 & e & Hl & Kd & He & H)];
    [reflexivity | constructor | |].
  - left. unfold dels. rewrite delUserModels_rejected.
    rewrite H. unfold after, p0. simpl. rewrite <- app_assoc. reflexivity.
  - right. exists l1, d, l2, e.
    split; [exact Hl|]. split; [apply inUserModels_not_In; exact Kd|].
    split.
    + rewrite <- He. rewrite delUserModels_rejected.
      unfold p0, after. simpl. rewrite <- app_assoc. reflexivity.
    + unfold dels. rewrite !delUserModels_rejected.
      rewrite H. unfold after, p0. simpl.
      rewrite <- !app_assoc. reflexivity.
Qed.



Lemma filter_none (f : UserModel -> bool) (l : list UserModel) :
  (forall x, In x l -> f x = false) -> filter f l = [].
Proof.
  induction l as [|a l IH]; intros H; simpl; [reflexivity|].
  rewrite (H a) by (left; reflexivity).
  apply IH. intros x Hx. apply H. right. exact Hx.
Qed.



End Reconciliation.

(** ** The cycle: [getTraffic] and [do] *)

Lemma string_app_assoc (a b c : string) :
  ((a ++ b) ++ c)%string = (a ++ (b ++ c))%string.
Proof. induction a as [|x a IH]; simpl; [reflexivity | rewrite IH; reflexivity]. Qed.

Lemma string_app_nil_r (a : string) : (a ++ "")%string = a.
Proof. induction a as [|x a IH]; simpl; [reflexivity | rewrite IH; reflexivity]. Qed.

Lemma nonempty_app_r (a b : string) : nonempty b = true -> nonempty (a ++ b) = true.
Proof. destruct a; simpl; auto. Qed.

Section Cycle.

Variable w : World.
Variable cfg : Config.

(** [getTraffic] always returns; it leaves stats reads only; its logs are the
    users it read positive traffic for; and when it returns an error, that is
    the error its last read got. *)
Lemma getTraffic_loop_outcome (users : list UserModel) :
  forall (logs : list userStatsLogs) (p : Panel),
  exists new err evs,
    getTraffic_loop w cfg users logs p
    = Done (logs ++ new, err) (after p (userModels p) evs)
    /\ Forall (fun e => is_stats_read e = true) evs
    /\ Forall (fun l => (0 < add64 (Uplink (embedded l)) (Downlink (embedded l)))%N
                        /\ exists u, In u users
                                     /\ UserID (embedded l) = ID u
                                     /\ UserPort l = Port u) new
    /\ (forall e, err = Some e ->
                  exists evs0 ev, evs = evs0 ++ [ev]
                                  /\ read_error w (trace p ++ evs0) ev = Some e).
Proof.
  induction users as [|u users IH]; intros logs p.
  - exists [], None, []. simpl. unfold ret.
    rewrite app_nil_r, after_nil. repeat split; try constructor. discriminate.
  - run.
    destruct (stats_getUserDownlink w (trace p) (Email u)) as [e|down] eqn:Hd; run.
    { exists [], (Some e), [EvGetUserDownlink (Email u)].
      rewrite app_nil_r. repeat split; try (repeat constructor).
      intros e' [= <-]. exists [], (EvGetUserDownlink (Email u)).
      split; [reflexivity|]. simpl. rewrite app_nil_r, Hd. reflexivity. }
    destruct (stats_getUserUplink w (trace p ++ [EvGetUserDownlink (Email u)])
                                  (Email u)) as [e|up] eqn:Hu; run.
    { exists [], (Some e), [EvGetUserDownlink (Email u); EvGetUserUplink (Email u)].
      rewrite app_nil_r. split; [|split; [|split]].
      - unfold after. rewrite <- app_assoc. reflexivity.
      - repeat constructor.
      - constructor.
      - intros e' [= <-].
        exists [EvGetUserDownlink (Email u)], (EvGetUserUplink (Email u)).
        split; [reflexivity|]. simpl. rewrite Hu. reflexivity. }
    set (p2 := mkPanel (userModels p) (RetryTimes p)
                 ((trace p ++ [EvGetUserDownlink (Email u)])
                    ++ [EvGetUserUplink (Email u)])).
    assert (Hwrap : forall (err : option Error) (evs : list Event),
      Forall (fun e => is_stats_read e = true) evs ->
      (forall e, err = Some e ->
         exists evs0 ev, evs = evs0 ++ [ev]
                         /\ read_error w (trace p2 ++ evs0) ev = Some e) ->
      Forall (fun e => is_stats_read e = true)
             (EvGetUserDownlink (Email u) :: EvGetUserUplink (Email u) :: evs)
      /\ (forall e, err = Some e ->
            exists evs0 ev,
              EvGetUserDownlink (Email u) :: EvGetUserUplink (Email u) :: evs
              = evs0 ++ [ev]
              /\ read_error w (trace p ++ evs0) ev = Some e)).
    { intros err evs Hall Herr. split; [repeat constructor; exact Hall|].
      intros e He. destruct (Herr e He) as (evs0 & ev & -> & Hr).
      exists (EvGetUserDownlink (Email u) :: EvGetUserUplink (Email u) :: evs0), ev.
      split; [reflexivity|]. rewrite <- Hr. unfold p2. simpl.
      rewrite <- !app_assoc. reflexivity. }
    assert (Hlift : forall new : list userStatsLogs,
      Forall (fun l => (0 < add64 (Uplink (embedded l)) (Downlink (embedded l)))%N
                        /\ exists x, In x users /\ UserID (embedded l) = ID x
                                     /\ UserPort l = Port x) new ->
      Forall (fun l => (0 < add64 (Uplink (embedded l)) (Downlink (embedded l)))%N
                        /\ exists x, In x (u :: users) /\ UserID (embedded l) = ID x
                                     /\ UserPort l = Port x) new).
    { intros new H. eapply Forall_impl; [|exact H]. simpl.
      intros l (Hpos & x & Hx & Hid). split; [exact Hpos|]. exists x. tauto. }
    destruct (0 <? add64 up down)%N eqn:Hpos.
    + destruct (IH (logs ++ [mkLog cfg u up down]) p2)
        as (new & err & evs & Hrun & Hall & Hnew & Herr).
      destruct (Hwrap err evs Hall Herr) as [Hall' Herr'].
      exists (mkLog cfg u up down :: new), err,
        (EvGetUserDownlink (Email u) :: EvGetUserUplink (Email u) :: evs).
      split; [|split; [exact Hall'|split; [|exact Herr']]].
      * fold p2. rewrite Hrun. unfold after, p2. simpl.
        rewrite <- !app_assoc. reflexivity.
      * constructor; [|apply Hlift; exact Hnew]. simpl.
        split; [apply N.ltb_lt; exact Hpos|]. exists u. auto.
    + destruct (IH logs p2) as (new & err & evs & Hrun & Hall & Hnew & Herr).
      destruct (Hwrap err evs Hall Herr) as [Hall' Herr'].
      exists new, err,
        (EvGetUserDownlink (Email u) :: EvGetUserUplink (Email u) :: evs).
      split; [|split; [exact Hall'|split; [apply Hlift; exact Hnew|exact Herr']]].
      fold p2. rewrite Hrun. unfold after, p2. simpl.
      rewrite <- !app_assoc. reflexivity.
Qed.

(** One user read with success: the log holds the two counts as read, and
    exists exactly when their uint64 sum is positive. *)
Lemma getTraffic_loop_read (u : UserModel) (rest : list UserModel)
      (logs : list userStatsLogs) (p : Panel) (up down : N) :
  stats_getUserDownlink w (trace p) (Email u) = inr down ->
  stats_getUserUplink w (trace p ++ [EvGetUserDownlink (Email u)]) (Email u)
  = inr up ->
  getTraffic_loop w cfg (u :: rest) logs p
  = getTraffic_loop w cfg rest
      (if (0 <? add64 up down)%N then logs ++ [mkLog cfg u up down] else logs)
      (after p (userModels p)
             [EvGetUserDownlink (Email u); EvGetUserUplink (Email u)]).
Proof.
  intros Hd Hu. run. rewrite Hd. run. rewrite Hu. run.
  unfold after. rewrite <- !app_assoc. simpl.
  destruct (0 <? add64 up down)%N; reflexivity.
Qed.

(** A failing read makes [getTraffic] return its error. *)
Lemma read_fails_getTraffic_loop (users : list UserModel) (e : Error) :
  forall (logs : list userStatsLogs) (p : Panel),
    read_fails w (trace p) users e ->
    exists logs' p',
      getTraffic_loop w cfg users logs p = Done (logs', Some e) p'.
Proof.
  induction users as [|u users IH]; intros logs p Hfail.
  - inversion Hfail.
  - inversion Hfail as [h u0 rest e0 Hd|h u0 rest down e0 Hd Hu
                        |h u0 rest down up e0 Hd Hu Hrest]; subst.
    + run. rewrite Hd. run. eauto.
    + run. rewrite Hd. run. rewrite Hu. run. eauto.
    + rewrite (getTraffic_loop_read u users logs p up down Hd Hu).
      apply IH. unfold after. cbn [trace]. exact Hrest.
Qed.

(** And [getTraffic] returns an error only when a read failed with it. *)
Lemma getTraffic_loop_error_read_fails (users : list UserModel) (e : Error) :
  forall (logs logs' : list userStatsLogs) (p p' : Panel),
    getTraffic_loop w cfg users logs p = Done (logs', Some e) p' ->
    read_fails w (trace p) users e.
Proof.
  induction users as [|u users IH]; intros logs logs' p p'.
  - simpl. unfold ret. discriminate.
  - destruct (stats_getUserDownlink w (trace p) (Email u)) as [x|down] eqn:Hd.
    { run. rewrite Hd. run. intros [= _ <- _]. apply downlink_fails. exact Hd. }
    destruct (stats_getUserUplink w (trace p ++ [EvGetUserDownlink (Email u)])
                                  (Email u)) as [x|up] eqn:Hu.
    { run. rewrite Hd. run. rewrite Hu. run. intros [= _ <- _].
      eapply uplink_fails; eassumption. }
    rewrite (getTraffic_loop_read u users logs p up down Hd Hu).
    intros Hrun. apply IH in Hrun.
    eapply later_fails; eassumption.
Qed.

Lemma getTraffic_error_iff (p : Panel) (e : Error) :
  (exists logs p', getTraffic w cfg p = Done (logs, Some e) p')
  <-> read_fails w (trace p) (userModels p) e.
Proof.
  unfold getTraffic. run. split.
  - intros (logs & p' & H).
    eapply getTraffic_loop_error_read_fails. exact H.
  - apply read_fails_getTraffic_loop.
Qed.

(** The loop of [do] over the logs. *)
Lemma do_logs_run (logs : list userStatsLogs) :
  forall (t : Tally) (p : Panel),
    do_logs w cfg logs t p
    = Done (fold_left (tally_step w cfg) (map embedded logs) t)
           (after p (userModels p) (row_events w cfg logs)).
Proof.
  induction logs as [|l logs IH]; intros t p.
  - simpl. unfold ret. rewrite after_nil. reflexivity.
  - run. rewrite IH. simpl. f_equal. unfold after. simpl.
    rewrite <- !app_assoc. reflexivity.
Qed.

(** What the tally holds after the loop. *)
Lemma tally_fold (logs : list UserTrafficLog) :
  forall t : Tally,
    let t' := fold_left (tally_step w cfg) logs t in
    onlineUsers t'
    = onlineUsers t
      + Z.of_nat (List.length
                    (filter (fun l => (2048 <? add64 (Uplink l) (Downlink l))%N)
                            logs))
    /\ userIDs t' = userIDs t ++ map UserID logs
    /\ uVals t'
       = (uVals t
          ++ join (map (fun l => uClause (UserID l)
                                         (mulTrafficRate w cfg (Uplink l))) logs))%string
    /\ dVals t'
       = (dVals t
          ++ join (map (fun l => dClause (UserID l)
                                         (mulTrafficRate w cfg (Downlink l))) logs))%string.
Proof.
  induction logs as [|l logs IH]; intros t; cbv zeta.
  - simpl. rewrite Z.add_0_r, app_nil_r, !string_app_nil_r. auto.
  - simpl fold_left. destruct (IH (tally_step w cfg t l)) as (H1 & H2 & H3 & H4).
    rewrite H1, H2, H3, H4.
    cbn [tally_step onlineUsers userIDs uVals dVals map filter join fold_right].
    rewrite <- app_assoc, !string_app_assoc.
    split; [|split; [reflexivity|split; reflexivity]].
    destruct (2048 <? add64 (Uplink l) (Downlink l))%N; simpl List.length; lia.
Qed.


End Cycle.

(** ** The shape of every run *)

Section Outcomes.

Variable w : World.
Variable cfg : Config.

Lemma add_phase_is_sync (evs : list Event) :
  Forall (fun e => is_add_phase_event e = true) evs ->
  Forall (fun e => is_sync_event e = true) evs.
Proof.
  intros H. eapply Forall_impl; [|exact H].
  intros e He. destruct e; simpl in *; congruence.
Qed.

Lemma del_events_sync (ds : list UserModel) :
  Forall (fun e => is_sync_event e = true) (del_events ds).
Proof. induction ds as [|d ds IH]; simpl; repeat constructor. exact IH. Qed.

(** [syncUser] leaves only events of its own, never touches the retry
    counter, and returns unless it meets the fatal stop. *)
Lemma syncUser_outcome_of (p : Panel) (r : Result (Z * Z * option Error)) :
  r = syncUser w cfg p ->
  (exists evs, trace (final r) = trace p ++ evs
               /\ Forall (fun e => is_sync_event e = true) evs)
  /\ RetryTimes (final r) = RetryTimes p
  /\ ((exists a p', r = Done a p') \/ fatal_stop w cfg r).
Proof.
  intros Hr0.
  destruct (db_GetAllUsers w (trace p) (NodeID cfg)) as [e|fetched] eqn:Hget.
  { unfold syncUser in Hr0. revert Hr0. run. rewrite Hget. run. intros ->.
    split; [|split].
    - exists [EvGetAllUsers (NodeID cfg)]. split; [reflexivity|repeat constructor].
    - reflexivity.
    - left. eauto. }
  destruct fetched as [|f fetched].
  { rewrite (syncUser_empty w cfg p Hget) in Hr0. subst r. split; [|split].
    - exists [EvGetAllUsers (NodeID cfg)]. split; [reflexivity|repeat constructor].
    - reflexivity.
    - left. eauto. }
  assert (Hne : f :: fetched <> []) by discriminate.
  rewrite (syncUser_fetched w cfg p _ Hget Hne) in Hr0.
  unfold bind at 1 in Hr0.
  destruct (syncUser_delete_phase w cfg p (f :: fetched))
    as [H|(l1 & d & l2 & e & Hl & Hd & He & H)]; cbv zeta in H; rewrite H in Hr0;
    cbn [snd fst] in Hr0.
  - unfold bind in Hr0.
    set (p1 := after p _ _) in Hr0.
    destruct (syncUser_add_outcome w cfg
                (addUserModels (f :: fetched) (userModels p)) 0 None p1)
      as ((evs & Hev & Hall) & Hr & Hout).
    cbv zeta in Hev, Hr, Hout.
    assert (Hsync : Forall (fun e => is_sync_event e = true)
                      (EvGetAllUsers (NodeID cfg)
                         :: del_events (delUserModels (f :: fetched) (userModels p))
                         ++ evs)).
    { constructor; [reflexivity|]. apply Forall_app.
      split; [apply del_events_sync | apply add_phase_is_sync; exact Hall]. }
    destruct (syncUser_add w cfg _ 0 None p1) as [a p'|p'] eqn:Hadd;
      unfold ret in Hr0; subst r; cbn [final] in *.
    + split; [|split].
      * eexists. split; [|exact Hsync].
        rewrite Hev. unfold p1, after. cbn [trace].
        rewrite <- app_assoc. reflexivity.
      * exact Hr.
      * left. eauto.
    + split; [|split].
      * eexists. split; [|exact Hsync].
        rewrite Hev. unfold p1, after. cbn [trace].
        rewrite <- app_assoc. reflexivity.
      * exact Hr.
      * right. destruct Hout as [(a & p'' & Hd)|(Hf & h & e & u & Hh & _ & Hu)];
          [discriminate|].
        split; [exact Hf|]. exists h, e, u. split; [|exact Hu].
        cbn [final]. rewrite Hr. injection Hh as Hh. f_equal. exact Hh.
  - unfold ret in Hr0. subst r. cbn [final]. split; [|split].
    + eexists. split; [reflexivity|].
      constructor; [reflexivity|]. apply Forall_app.
      split; [apply del_events_sync | repeat constructor].
    + reflexivity.
    + left. eauto.
Qed.

Lemma syncUser_outcome (p : Panel) :
  (exists evs, trace (final (syncUser w cfg p)) = trace p ++ evs
               /\ Forall (fun e => is_sync_event e = true) evs)
  /\ RetryTimes (final (syncUser w cfg p)) = RetryTimes p
  /\ ((exists a p', syncUser w cfg p = Done a p')
      \/ fatal_stop w cfg (syncUser w cfg p)).
Proof. apply syncUser_outcome_of. reflexivity. Qed.

(** [do] from the line after [getTraffic]: the accounting events, then
    [syncUser], whose error is dropped. *)
Lemma do_account_run (logs : list userStatsLogs) (p : Panel) :
  do_account w cfg logs p
  = match syncUser w cfg (after p (userModels p)
                                (account_events w cfg (trace p) logs)) with
    | Done s p' =>
        Done (None, (fst (fst s), snd (fst s), tally_of w cfg logs)) p'
    | Halted p' => Halted p'
    end.
Proof.
  unfold do_account. unfold bind at 1. rewrite do_logs_run.
  fold (tally_of w cfg logs). unfold account_events, online_events, update_events.
  cbv zeta. set (t := tally_of w cfg logs).
  destruct (0 <? onlineUsers t);
    destruct (nonempty (uVals t) && nonempty (dVals t)); run;
    unfold after; cbn [userModels RetryTimes trace];
    rewrite <- ?app_assoc, ?app_nil_r; cbn [app]; rewrite ?app_nil_r;
    reflexivity.
Qed.

Lemma do_ping_failed (p : Panel) (e : Error) :
  db_Ping w (trace p) = Some e ->
  do w cfg p
  = Done None (mkPanel (userModels p) (RetryTimes p + 1)
                       (trace p ++ [EvPing;
                                    EvLog Debug (LostDb (RetryTimes p + 1))])).
Proof.
  intros H. unfold do. run. rewrite H. run.
  rewrite <- app_assoc. reflexivity.
Qed.

Lemma do_ping_ok (p : Panel) :
  db_Ping w (trace p) = None ->
  do w cfg p
  = deferred w (do_body w cfg (mkPanel (userModels p) 0 (trace p ++ [EvPing]))).
Proof.
  intros H. unfold do. run. rewrite H. run. unfold bind at 1.
  destruct (do_body w cfg _) as [[err [[a d] t]] p'|p']; reflexivity.
Qed.

Lemma do_body_heartbeat_failed (p : Panel) (e : Error) :
  db_CreateNodeInfo w (trace p) (heartbeat w cfg (trace p)) = Some e ->
  do_body w cfg p
  = Done (Some e, (0, 0, tally0))
         (after p (userModels p) [EvCreateNodeInfo (heartbeat w cfg (trace p))]).
Proof. intros H. unfold do_body. run. unfold heartbeat in H. rewrite H. reflexivity. Qed.

Lemma do_body_heartbeat_ok (p : Panel) :
  db_CreateNodeInfo w (trace p) (heartbeat w cfg (trace p)) = None ->
  do_body w cfg p
  = (t <- getTraffic w cfg ;;
     match snd t with
     | Some err => ret (Some err, (0, 0, tally0))
     | None => do_account w cfg (fst t)
     end)
      (after p (userModels p) [EvCreateNodeInfo (heartbeat w cfg (trace p))]).
Proof. intros H. unfold do_body. run. unfold heartbeat in H. rewrite H. reflexivity. Qed.

(** [getTraffic] on the panel's own users. *)
Lemma getTraffic_outcome (p : Panel) :
  exists logs err evs,
    getTraffic w cfg p = Done (logs, err) (after p (userModels p) evs)
    /\ Forall (fun e => is_stats_read e = true) evs
    /\ Forall (fun l => (0 < add64 (Uplink (embedded l)) (Downlink (embedded l)))%N
                        /\ exists u, In u (userModels p)
                                     /\ UserID (embedded l) = ID u
                                     /\ UserPort l = Port u) logs
    /\ (forall e, err = Some e ->
                  exists evs0 ev, evs = evs0 ++ [ev]
                                  /\ read_error w (trace p ++ evs0) ev = Some e).
Proof.
  unfold getTraffic. run.
  destruct (getTraffic_loop_outcome w cfg (userModels p) [] p)
    as (new & err & evs & H). exists new, err, evs. exact H.
Qed.

(** When no read fails, [getTraffic] returns its logs and no error. *)
Lemma getTraffic_succeeds (p : Panel) :
  (forall e, ~ read_fails w (trace p) (userModels p) e) ->
  exists logs p2, getTraffic w cfg p = Done (logs, None) p2.
Proof.
  intros Hok.
  destruct (getTraffic_outcome p) as (logs & err & evs & Hrun & _).
  destruct err as [e|]; [|eauto].
  exfalso. apply (Hok e). apply (getTraffic_error_iff w cfg). eauto.
Qed.

End Outcomes.

(** * The claims about reconciliation *)

(** C8. When the fetched authoritative list is empty, [syncUser] does
    nothing: it returns (0, 0, nil) having made the fetch only, so it issues
    no add call and no remove call, and the provisioned users are the ones it
    started with. *)
Theorem syncUser_empty_fetch_is_noop (w : World) (cfg : Config) (p : Panel) :
  db_GetAllUsers w (trace p) (NodeID cfg) = inr [] ->
  syncUser w cfg p
  = Done (0, 0, None) (after p (userModels p) [EvGetAllUsers (NodeID cfg)])
  /\ userModels (final (syncUser w cfg p)) = userModels p
  /\ (exists evs, trace (final (syncUser w cfg p)) = trace p ++ evs
                  /\ filter (fun e => is_del_call e || is_add_call e) evs = []).
Proof.
  intros Hget. rewrite (syncUser_empty w cfg p Hget).
  split; [reflexivity|]. split; [reflexivity|].
  exists [EvGetAllUsers (NodeID cfg)]. split; reflexivity.
Qed.

Lemma syncUser_empty_fetch_is_noop_witness :
  db_GetAllUsers world_empty_fetch [] 7 = inr []
  /\ userModels (final (syncUser world_empty_fetch (config false rate_1)
                                 (start [alice; bob])))
     = [alice; bob].
Proof.
  split; [reflexivity|].
  exact (proj1 (proj2 (syncUser_empty_fetch_is_noop
                         world_empty_fetch (config false rate_1)
                         (start [alice; bob]) eq_refl))).
Defined.






Lemma del_events_no_add (ds : list UserModel) :
  Forall (fun e => is_add_call e = false) (del_events ds).
Proof. induction ds as [|d ds IH]; simpl; repeat constructor. exact IH. Qed.

Lemma add_phase_no_del (evs : list Event) :
  Forall (fun e => is_add_phase_event e = true) evs ->
  Forall (fun e => is_del_call e = false) evs.
Proof.
  intros H. eapply Forall_impl; [|exact H].
  intros e He. destruct e; simpl in *; congruence.
Qed.

(** C4. Past the fetch of a non-empty list, [syncUser] runs in one of two
    ways.  Either every removal succeeds: then the history holds the remove
    calls of all scheduled removals (each by the user's label, each followed
    by its log line) before anything of the addition loop, the provisioned
    list the additions start from is the old one without the removed entries,
    and the deleted count is the number of scheduled removals.  Or a removal
    fails: then [syncUser] returns that error at once; the removals before it
    were applied and counted, the entry of the failing call is dropped too,
    and no later removal and no addition is issued. *)
Theorem syncUser_removals_first (w : World) (cfg : Config) (p : Panel)
        (fetched : list UserModel) :
  db_GetAllUsers w (trace p) (NodeID cfg) = inr fetched ->
  fetched <> [] ->
  let dels := delUserModels fetched (userModels p) in
  let adds := addUserModels fetched (userModels p) in
  (exists evs,
      syncUser w cfg p
      = (a <- syncUser_add w cfg adds 0 None ;;
         ret (fst a, Z.of_nat (List.length dels), snd a))
          (after p (filter (kept fetched) (userModels p))
                 (EvGetAllUsers (NodeID cfg) :: del_events dels))
      /\ trace (final (syncUser w cfg p))
         = trace p ++ EvGetAllUsers (NodeID cfg) :: del_events dels ++ evs
      /\ Forall (fun e => is_add_call e = false) (del_events dels)
      /\ Forall (fun e => is_del_call e = false) evs)
  \/ (exists l1 d l2 e,
         userModels p = l1 ++ d :: l2 /\ ~ In d fetched /\
         handler_DelUser w
           (trace p ++ EvGetAllUsers (NodeID cfg)
                    :: del_events (delUserModels fetched l1)) (Email d)
         = Some e /\
         syncUser w cfg p
         = Done (0, Z.of_nat (List.length (delUserModels fetched l1)), Some e)
                (after p (filter (kept fetched) l1 ++ l2)
                       (EvGetAllUsers (NodeID cfg)
                          :: del_events (delUserModels fetched l1)
                          ++ [EvDelUser (Email d)])) /\
         dels = delUserModels fetched l1 ++ d :: delUserModels fetched l2 /\
         filter is_add_call
                (del_events (delUserModels fetched l1) ++ [EvDelUser (Email d)])
         = []).
Proof.
  intros Hget Hne dels adds.
  pose proof (syncUser_fetched w cfg p fetched Hget Hne) as Hs.
  unfold bind at 1 in Hs.
  destruct (syncUser_delete_phase w cfg p fetched)
    as [H|(l1 & d & l2 & e & Hl & Hd & He & H)]; cbv zeta in H; rewrite H in Hs;
    cbn [snd fst] in Hs.
  - left. fold dels in Hs. fold adds in Hs.
    set (p1 := after p _ _) in Hs.
    destruct (syncUser_add_outcome w cfg adds 0 None p1)
      as ((evs & Hev & Hall) & _ & _). cbv zeta in Hev.
    exists evs. split; [exact Hs|]. split; [|split].
    + rewrite Hs. unfold bind.
      destruct (syncUser_add w cfg adds 0 None p1) as [a q|q];
        unfold ret; cbn [final] in *; rewrite Hev; unfold p1, after;
        cbn [trace]; rewrite <- app_assoc; reflexivity.
    + apply del_events_no_add.
    + apply add_phase_no_del. exact Hall.
  - right. exists l1, d, l2, e.
    split; [exact Hl|]. split; [exact Hd|]. split; [exact He|].
    split; [exact Hs|]. split.
    + unfold dels, delUserModels. rewrite Hl, filter_app. simpl.
      rewrite (proj2 (inUserModels_not_In d fetched) Hd). reflexivity.
    + rewrite filter_app. simpl. rewrite app_nil_r.
      generalize (delUserModels fetched l1). intros ds.
      induction ds as [|x ds IH]; simpl; [reflexivity | exact IH].
Qed.

Lemma syncUser_removals_first_witness :
  syncUser world_del_bob_fails (config false rate_1) (start [alice; bob; alice'])
  = Done (0, 1, Some "rpc error"%string)
         (mkPanel [alice'] 0
            [EvGetAllUsers 7;
             EvDelUser "alice@x"; EvLog Debug (DeletedUser alice);
             EvDelUser "bob@x"]).
Proof.
  destruct (syncUser_removals_first world_del_bob_fails (config false rate_1)
              (start [alice; bob; alice']) [alice'] eq_refl
              ltac:(discriminate))
    as [(evs & H & _)|(l1 & d & l2 & e & _ & _ & _ & H & _)];
    reflexivity.
Defined.

(** C10. When an add call fails inside the addition loop: if the
    configuration tolerates it, a warning is logged, the provisioned list and
    the added count stay as they were, and the loop goes on with the users
    that remain; otherwise the failure is fatal and the process halts there.
    Against a handler whose answer depends on the payload only, a tolerant
    run therefore attempts every scheduled user once, appends and counts
    exactly those whose call succeeded, and returns the error of the last
    call. *)
Theorem add_failure_policy (w : World) (cfg : Config) (u : UserModel)
        (rest : list UserModel) (n : Z) (err : option Error) (p : Panel)
        (e : Error) :
  handler_AddUser w (trace p) (convertUser cfg u) = Some e ->
  (IgnoreEmptyVmessID cfg = true ->
   syncUser_add w cfg (u :: rest) n err p
   = syncUser_add w cfg rest n (Some e)
       (after p (userModels p)
              [EvAddUser (convertUser cfg u); EvLog Warning (AddUserErr e u)])
   /\ forall answer adds n0 err0 p0,
       (forall h x, handler_AddUser w h x = answer x) ->
       let good := filter (fun x => succeeded (answer (convertUser cfg x))) adds in
       syncUser_add w cfg adds n0 err0 p0
       = Done (n0 + Z.of_nat (List.length good),
               fold_left (fun _ x => answer (convertUser cfg x)) adds err0)
              (after p0 (userModels p0 ++ good)
                     (flat_map (fun x => attempt_events cfg
                                           (answer (convertUser cfg x)) x) adds)))
  /\ (IgnoreEmptyVmessID cfg = false ->
      syncUser_add w cfg (u :: rest) n err p
      = Halted (after p (userModels p)
                      [EvAddUser (convertUser cfg u); EvFatal e u])).
Proof.
  intros Hfail. split.
  - intros Ht. split.
    + apply syncUser_add_tolerated; assumption.
    + intros answer adds n0 err0 p0 Hans.
      apply syncUser_add_tolerant; assumption.
  - intros Ht. apply syncUser_add_fatal; assumption.
Qed.

Lemma add_failure_policy_witness :
  syncUser_add world_add_bob_fails (config true rate_1) [bob; alice] 0 None
               (start [])
  = Done (1, None)
         (mkPanel [alice] 0
            [EvAddUser (convertUser (config true rate_1) bob);
             EvLog Warning (AddUserErr "bad id"%string bob);
             EvAddUser (convertUser (config true rate_1) alice);
             EvLog Debug (AddedUser alice)])
  /\ syncUser_add world_add_bob_fails (config false rate_1) [bob; alice] 0 None
                  (start [])
     = Halted (mkPanel [] 0
                 [EvAddUser (convertUser (config false rate_1) bob);
                  EvFatal "bad id"%string bob]).
Proof.
  split.
  - rewrite (proj1 (proj1 (add_failure_policy world_add_bob_fails
                             (config true rate_1) bob [alice] 0 None (start [])
                             "bad id"%string eq_refl) eq_refl)).
    reflexivity.
  - exact (proj2 (add_failure_policy world_add_bob_fails
                    (config false rate_1) bob [alice] 0 None (start [])
                    "bad id"%string eq_refl) eq_refl).
Defined.

(** * The claims about the cycle *)

Section CycleFacts.

Variable w : World.
Variable cfg : Config.

Lemma deferred_RetryTimes (r : Result (option Error * (Z * Z * Tally))) :
  RetryTimes (final (deferred w r)) = RetryTimes (final r).
Proof. destruct r as [[err [[a d] t]] q|q]; reflexivity. Qed.

Lemma do_account_RetryTimes (logs : list userStatsLogs) (p : Panel) :
  RetryTimes (final (do_account w cfg logs p)) = RetryTimes p.
Proof.
  rewrite do_account_run.
  destruct (syncUser_outcome w cfg
              (after p (userModels p) (account_events w cfg (trace p) logs)))
    as (_ & Hr & _).
  destruct (syncUser w cfg _) as [s q|q]; exact Hr.
Qed.

Lemma do_body_RetryTimes (p : Panel) :
  RetryTimes (final (do_body w cfg p)) = RetryTimes p.
Proof.
  destruct (db_CreateNodeInfo w (trace p) (heartbeat w cfg (trace p)))
    as [e|] eqn:Hh.
  - rewrite (do_body_heartbeat_failed w cfg p e Hh). reflexivity.
  - rewrite (do_body_heartbeat_ok w cfg p Hh). unfold bind.
    destruct (getTraffic_outcome w cfg
                (after p (userModels p)
                       [EvCreateNodeInfo (heartbeat w cfg (trace p))]))
      as (logs & err & evs & Hrun & _).
    rewrite Hrun. cbn [snd fst]. destruct err as [e|].
    + reflexivity.
    + rewrite do_account_RetryTimes. reflexivity.
Qed.

Lemma do_to_traffic (p : Panel) :
  reaches_traffic w cfg p ->
  do w cfg p
  = deferred w ((t <- getTraffic w cfg ;;
                 match snd t with
                 | Some err => ret (Some err, (0, 0, tally0))
                 | None => do_account w cfg (fst t)
                 end) (at_traffic w cfg p)).
Proof.
  intros [Hping Hbeat]. rewrite (do_ping_ok w cfg p Hping).
  rewrite do_body_heartbeat_ok by exact Hbeat.
  unfold at_traffic, after. cbn [userModels RetryTimes trace].
  rewrite <- app_assoc. reflexivity.
Qed.

(** A cycle whose stats reads all succeed comes down to its reconciliation. *)
Lemma do_to_reconciliation (p p2 : Panel) (logs : list userStatsLogs) :
  reaches_traffic w cfg p ->
  getTraffic w cfg (at_traffic w cfg p) = Done (logs, None) p2 ->
  do w cfg p
  = deferred w
      match syncUser w cfg (after p2 (userModels p2)
                                  (account_events w cfg (trace p2) logs)) with
      | Done s q => Done (None, (fst (fst s), snd (fst s), tally_of w cfg logs)) q
      | Halted q => Halted q
      end.
Proof.
  intros Hreach Htraffic. rewrite (do_to_traffic p Hreach).
  unfold bind. rewrite Htraffic. cbn [snd fst].
  rewrite do_account_run. reflexivity.
Qed.






End CycleFacts.

(** C2. When the ping fails, [do] adds one to the retry counter and returns
    nil having left the ping and one debug line in the history and nothing
    else: no heartbeat, no traffic log, no online snapshot, no bulk update,
    no fetch, no add or remove call; the provisioned users are unchanged.
    When the ping succeeds, the retry counter is zero when [do] stops. *)
Theorem ping_guard (w : World) (cfg : Config) (p : Panel) :
  (forall e, db_Ping w (trace p) = Some e ->
             do w cfg p
             = Done None
                    (mkPanel (userModels p) (RetryTimes p + 1)
                             (trace p ++ [EvPing;
                                          EvLog Debug (LostDb (RetryTimes p + 1))])))
  /\ (db_Ping w (trace p) = None -> RetryTimes (final (do w cfg p)) = 0).
Proof.
  split.
  - intros e H. apply (do_ping_failed w cfg p e H).
  - intros H. rewrite (do_ping_ok w cfg p H), deferred_RetryTimes.
    rewrite do_body_RetryTimes. reflexivity.
Qed.

Lemma ping_guard_witness :
  do world_db_down (config false rate_1) (mkPanel [alice] 4 [])
  = Done None (mkPanel [alice] 5 [EvPing; EvLog Debug (LostDb 5)])
  /\ RetryTimes (final (do world_rotation (config false rate_1)
                           (mkPanel [alice] 4 []))) = 0.
Proof.
  split.
  - exact (proj1 (ping_guard world_db_down (config false rate_1)
                    (mkPanel [alice] 4 [])) "connection refused"%string eq_refl).
  - exact (proj2 (ping_guard world_rotation (config false rate_1)
                    (mkPanel [alice] 4 [])) eq_refl).
Defined.

(** [do] when [getTraffic] returns an error. *)
Lemma do_on_traffic_error (w : World) (cfg : Config) (p p2 : Panel)
      (logs : list userStatsLogs) (e : Error) :
  reaches_traffic w cfg p ->
  getTraffic w cfg (at_traffic w cfg p) = Done (logs, Some e) p2 ->
  do w cfg p
  = Done (Some e)
         (mkPanel (userModels p) 0 (trace p2 ++ [summary w 0 0 tally0]))
  /\ exists reads last,
      trace p2 = trace (at_traffic w cfg p) ++ reads ++ [last]
      /\ Forall (fun ev => is_stats_read ev = true) (reads ++ [last])
      /\ read_error w (trace (at_traffic w cfg p) ++ reads) last = Some e.
Proof.
  intros Hreach Htraffic.
  destruct (getTraffic_outcome w cfg (at_traffic w cfg p))
    as (logs' & err & evs & Hrun & Hall & _ & Herr).
  rewrite Htraffic in Hrun. injection Hrun as Hlogs Herr' Hp2. subst err.
  destruct (Herr e eq_refl) as (reads & last & -> & Hread).
  split.
  - rewrite (do_to_traffic w cfg p Hreach). unfold bind. rewrite Htraffic.
    cbn [snd fst]. unfold ret, deferred. rewrite Hp2. reflexivity.
  - exists reads, last. rewrite Hp2. split; [reflexivity|].
    split; [exact Hall | exact Hread].
Qed.

(** C3. When a stats read fails while [getTraffic] collects the traffic of
    the provisioned users, [do] returns the error of that read.  The history
    of the cycle is then the ping, the heartbeat, stats reads up to the
    failing one, and the summary line: no traffic log, no online snapshot, no
    bulk update, no fetch and no add or remove call; the provisioned users
    are unchanged. *)
Theorem stats_failure_aborts (w : World) (cfg : Config) (p : Panel) (e : Error) :
  reaches_traffic w cfg p ->
  read_fails w (trace (at_traffic w cfg p)) (userModels p) e ->
  exists reads last,
    do w cfg p
    = Done (Some e)
           (mkPanel (userModels p) 0
                    (trace (at_traffic w cfg p) ++ reads ++ [last]
                           ++ [summary w 0 0 tally0]))
    /\ Forall (fun ev => is_stats_read ev = true) (reads ++ [last])
    /\ read_error w (trace (at_traffic w cfg p) ++ reads) last = Some e.
Proof.
  intros Hreach Hfail.
  destruct (read_fails_getTraffic_loop w cfg (userModels p) e []
              (at_traffic w cfg p) Hfail) as (logs & p2 & Hrun).
  destruct (do_on_traffic_error w cfg p p2 logs e Hreach Hrun)
    as (Hdo & reads & last & Htrace & Hall & Hread).
  exists reads, last. split; [|split; [exact Hall | exact Hread]].
  rewrite Hdo, Htrace, <- !app_assoc. reflexivity.
Qed.

Lemma stats_failure_aborts_witness :
  exists reads last,
    do world_stats_fail (config false rate_1) (start [alice; bob])
    = Done (Some "stats down"%string)
           (mkPanel [alice; bob] 0
              ([EvPing; EvCreateNodeInfo (mkNodeInfo 7 1 "0.00 0.00 0.00")]
                 ++ reads ++ [last]
                 ++ [summary world_stats_fail 0 0 tally0]))
    /\ Forall (fun ev => is_stats_read ev = true) (reads ++ [last]).
Proof.
  destruct (stats_failure_aborts world_stats_fail (config false rate_1)
              (start [alice; bob]) "stats down"%string (conj eq_refl eq_refl)
              (later_fails world_stats_fail _ alice [bob] 5%N 5%N _ eq_refl eq_refl
                 (downlink_fails world_stats_fail _ bob [] _ eq_refl)))
    as (reads & last & Hdo & Hall & _).
  exists reads, last. split; [exact Hdo | exact Hall].
Defined.

(** [do] once [getTraffic] has returned its logs and no error. *)
Lemma do_after_traffic (w : World) (cfg : Config) (p p2 : Panel)
        (logs : list userStatsLogs) :
  reaches_traffic w cfg p ->
  getTraffic w cfg (at_traffic w cfg p) = Done (logs, None) p2 ->
  let p3 := after p2 (userModels p2) (account_events w cfg (trace p2) logs) in
  (forall s q, syncUser w cfg p3 = Done s q ->
               do w cfg p
               = Done None
                      (after q (userModels q)
                             [summary w (fst (fst s)) (snd (fst s))
                                      (tally_of w cfg logs)]))
  /\ ((exists q, do w cfg p = Done None q) \/ fatal_stop w cfg (do w cfg p)).
Proof.
  intros Hreach Htraffic p3.
  pose proof (do_to_reconciliation w cfg p p2 logs Hreach Htraffic) as Hdo.
  fold p3 in Hdo.
  destruct (syncUser_outcome w cfg p3) as (_ & _ & Hout).
  assert (Hdone : forall s q, syncUser w cfg p3 = Done s q ->
            do w cfg p
            = Done None (after q (userModels q)
                               [summary w (fst (fst s)) (snd (fst s))
                                        (tally_of w cfg logs)])).
  { intros s q Hs. rewrite Hdo, Hs. reflexivity. }
  split; [exact Hdone|].
  destruct Hout as [(s & q & Hs)|(Hf & h & e & u & Hh & Hu)].
  - left. eexists. apply (Hdone s q Hs).
  - right. split; [exact Hf|]. exists h, e, u. split; [|exact Hu].
    rewrite Hdo. rewrite Hh. reflexivity.
Qed.

(** C5, as the code has it.  When the ping and the heartbeat succeed and no
    stats read fails, [do] comes down to its reconciliation: it returns nil
    whenever [syncUser] returns, whatever [syncUser] returned and whatever the
    traffic-log inserts, the online snapshot and the bulk update answered;
    and the only other way for it to stop is the fatal stop of an add call
    that failed under a configuration that does not tolerate it.  So it
    returns nil whenever failures are tolerated, and whenever every add call
    succeeds. *)
Theorem do_returns_nil_or_halts (w : World) (cfg : Config) (p : Panel) :
  reaches_traffic w cfg p ->
  (forall e, ~ read_fails w (trace (at_traffic w cfg p)) (userModels p) e) ->
  exists logs p2,
    getTraffic w cfg (at_traffic w cfg p) = Done (logs, None) p2
    /\ (forall s q,
           syncUser w cfg (after p2 (userModels p2)
                                 (account_events w cfg (trace p2) logs))
           = Done s q ->
           do w cfg p
           = Done None
                  (after q (userModels q)
                         [summary w (fst (fst s)) (snd (fst s))
                                  (tally_of w cfg logs)]))
    /\ ((exists q, do w cfg p = Done None q) \/ fatal_stop w cfg (do w cfg p))
    /\ (IgnoreEmptyVmessID cfg = true -> exists q, do w cfg p = Done None q)
    /\ ((forall h x, handler_AddUser w h x = None) ->
        exists q, do w cfg p = Done None q).
Proof.
  intros Hreach Hreads.
  destruct (getTraffic_succeeds w cfg (at_traffic w cfg p) Hreads)
    as (logs & p2 & Htraffic).
  destruct (do_after_traffic w cfg p p2 logs Hreach Htraffic) as (Hdone & Hcases).
  exists logs, p2. split; [exact Htraffic|]. split; [exact Hdone|].
  split; [exact Hcases|]. split.
  - intros Ht. destruct Hcases as [H|(Hf & _)]; [exact H | congruence].
  - intros Hadd. destruct Hcases as [H|(_ & h & e & u & _ & Hu)]; [exact H|].
    rewrite Hadd in Hu. discriminate.
Qed.

Lemma world_all_broken_reads_ok (h : History) (users : list UserModel) (e : Error) :
  ~ read_fails world_all_broken h users e.
Proof. intros H. induction H; [discriminate | discriminate | assumption]. Qed.

Lemma do_returns_nil_or_halts_witness :
  exists q, do world_all_broken (config true rate_1) (start [alice]) = Done None q.
Proof.
  destruct (do_returns_nil_or_halts world_all_broken (config true rate_1)
              (start [alice]) (conj eq_refl eq_refl)
              (world_all_broken_reads_ok _ _))
    as (logs & p2 & _ & _ & _ & Htolerant & _).
  exact (Htolerant eq_refl).
Defined.

(** C5 as stated fails on the fatal path: the ping, the heartbeat and the
    stats reads succeed, the add call for [bob] fails, failures are not
    tolerated, and [do] halts instead of returning nil. *)
Lemma do_halts_on_fatal_add :
  let w := world None (inr [bob]) (fun _ => inr (3000, 100)%N) all_ok all_fail
                 None in
  let cfg := config false rate_1 in
  reaches_traffic w cfg (start [alice])
  /\ (forall h users e, ~ read_fails w h users e)
  /\ (exists q, do w cfg (start [alice]) = Halted q)
  /\ ~ (exists q, do w cfg (start [alice]) = Done None q).
Proof.
  cbv zeta. split; [split; reflexivity|]. split.
  - intros h users e H. induction H; [discriminate | discriminate | assumption].
  - split.
    + eexists. reflexivity.
    + intros [q H]. discriminate H.
Qed.








(** The cycle of the spec's two examples, run: [alice] with 1500 up and 700
    down, [bob] with 100 up and 50 down, at rate 2.0. *)
Example do_example_cycle :
  do world_traffic (config false rate_2) (start [alice; bob])
  = Done None
      (mkPanel [alice; bob] 0
         [EvPing;
          EvCreateNodeInfo (mkNodeInfo 7 1 "0.00 0.00 0.00");
          EvGetUserDownlink "alice@x"; EvGetUserUplink "alice@x";
          EvGetUserDownlink "bob@x"; EvGetUserUplink "bob@x";
          EvCreateUserTrafficLog (mkUserTrafficLog 1 1500 700 7 rate_2 "4400B");
          EvCreateUserTrafficLog (mkUserTrafficLog 2 100 50 7 rate_2 "300B");
          EvCreateNodeOnlineLog (mkNodeOnlineLog 7 1);
          EvUpdates
            (mkTotalsUpdate [1; 2]%N
               "CASE id  WHEN 1 THEN u + 3000 WHEN 2 THEN u + 200 END"
               "CASE id  WHEN 1 THEN d + 1400 WHEN 2 THEN d + 100 END"
               1700000009);
          EvGetAllUsers 7;
          EvLog Debug (Summary 0 0 "750B" "1600B" 1)]).
Proof. vm_compute. reflexivity. Qed.

(** * Further properties of the code *)

(** ** Search and payload *)

Lemma first_occurrence (u : UserModel) (l : list UserModel) :
  In u l -> exists pre post, l = pre ++ u :: post /\ ~ In u pre.
Proof.
  induction l as [|a l IH]; intros Hin; [destruct Hin|].
  destruct (UserModel_eq_dec a u) as [->|Hne].
  - exists [], l. split; [reflexivity | intros []].
  - destruct Hin as [Heq|Hin]; [congruence|].
    destruct (IH Hin) as (pre & post & -> & Hpre).
    exists (a :: pre), post. split; [reflexivity|].
    intros [H|H]; [congruence | auto].
Qed.

(** X1. [findUserModelIndex] returns -1 exactly when no entry equals the
    user in every field, on the empty list in particular; otherwise it
    returns the position of the first such entry, which is within the list. *)
Theorem findUserModelIndex_first (u : UserModel) (l : list UserModel) :
  (findUserModelIndex u l = -1 <-> ~ In u l)
  /\ findUserModelIndex u [] = -1
  /\ (In u l ->
      exists pre post,
        l = pre ++ u :: post /\ ~ In u pre
        /\ findUserModelIndex u l = Z.of_nat (List.length pre)
        /\ 0 <= findUserModelIndex u l < Z.of_nat (List.length l)
        /\ nth_error l (Z.to_nat (findUserModelIndex u l)) = Some u).
Proof.
  split; [apply find_from_absent; lia|]. split; [reflexivity|].
  intros Hin. destruct (first_occurrence u l Hin) as (pre & post & -> & Hpre).
  exists pre, post. unfold findUserModelIndex.
  rewrite (find_from_first u pre post Hpre 0), Z.add_0_l.
  split; [reflexivity|]. split; [exact Hpre|]. split; [reflexivity|]. split.
  - rewrite length_app. simpl. lia.
  - rewrite Nat2Z.id, nth_error_app2, Nat.sub_diag by lia. reflexivity.
Qed.

Lemma findUserModelIndex_first_witness :
  findUserModelIndex alice' [alice; bob; alice'; alice'] = 2
  /\ findUserModelIndex alice' [alice; bob] = -1.
Proof.
  split.
  - destruct (proj2 (proj2 (findUserModelIndex_first alice'
                              [alice; bob; alice'; alice']))
                    ltac:(simpl; auto))
      as (pre & post & _ & _ & _ & _ & _).
    reflexivity.
  - apply (proj1 (findUserModelIndex_first alice' [alice; bob])).
    intros [H|[H|[]]]; discriminate H.
Defined.

(** X2. The payload [convertUser] builds depends on the label and the
    credential of the record and on nothing else: two records get the same
    payload exactly when their [Email] and [VmessID] agree, whatever the
    protocol, so the identifier and the port never reach the proxy. *)
Theorem convertUser_same_payload (cfg : Config) (u u' : UserModel) :
  convertUser cfg u = convertUser cfg u'
  <-> Email u = Email u' /\ VmessID u = VmessID u'.
Proof.
  unfold convertUser.
  destruct (String.eqb (inbound_Protocol cfg) "vless");
    [|destruct (String.eqb (inbound_Protocol cfg) "trojan")];
    (split; [intros H; injection H; auto | intros [-> ->]; reflexivity]).
Qed.

(** X5. Zero traffic is billed zero at every rate that is a number:
    [mulTrafficRate 0 = 0] unless the rate is an infinity or a NaN. *)
Theorem mulTrafficRate_zero (w : World) (cfg : Config) :
  is_number (TrafficRate cfg) = true -> mulTrafficRate w cfg 0 = 0%N.
Proof.
  unfold mulTrafficRate. destruct (TrafficRate cfg) as [s|s| |s m e];
    simpl; try discriminate; intros _; reflexivity.
Qed.

Lemma mulTrafficRate_zero_witness :
  mulTrafficRate world_traffic (config false rate_2) 0 = 0%N.
Proof. exact (mulTrafficRate_zero world_traffic (config false rate_2) eq_refl). Defined.

(** ** Collecting traffic *)

Lemma getTraffic_loop_bounds (w : World) (cfg : Config) (users : list UserModel) :
  forall (logs : list userStatsLogs) (p : Panel),
  exists new err evs,
    getTraffic_loop w cfg users logs p
    = Done (logs ++ new, err) (after p (userModels p) evs)
    /\ Forall (fun e => is_stats_read e = true) evs
    /\ (List.length new <= List.length users)%nat
    /\ (List.length evs <= 2 * List.length users)%nat
    /\ (err = None -> evs = read_events users).
Proof.
  induction users as [|u users IH]; intros logs p.
  - exists [], None, []. simpl. unfold ret. rewrite app_nil_r, after_nil.
    repeat split; auto.
  - destruct (stats_getUserDownlink w (trace p) (Email u)) as [x|down] eqn:Hd.
    { exists [], (Some x), [EvGetUserDownlink (Email u)].
      run. rewrite Hd. run. rewrite app_nil_r. simpl.
      split; [reflexivity|]. split; [repeat constructor|].
      repeat split; try lia. discriminate. }
    destruct (stats_getUserUplink w (trace p ++ [EvGetUserDownlink (Email u)])
                                  (Email u)) as [x|up] eqn:Hu.
    { exists [], (Some x), [EvGetUserDownlink (Email u); EvGetUserUplink (Email u)].
      run. rewrite Hd. run. rewrite Hu. run. rewrite app_nil_r. simpl.
      split; [unfold after; rewrite <- app_assoc; reflexivity|].
      split; [repeat constructor|].
      repeat split; try lia. discriminate. }
    rewrite (getTraffic_loop_read w cfg u users logs p up down Hd Hu).
    set (p2 := after p (userModels p) _).
    destruct (IH (if (0 <? add64 up down)%N
                  then logs ++ [mkLog cfg u up down] else logs) p2)
      as (new & err & evs & Hrun & Hall & Hnew & Hevs & Hok).
    exists ((if (0 <? add64 up down)%N then [mkLog cfg u up down] else []) ++ new),
      err, (EvGetUserDownlink (Email u) :: EvGetUserUplink (Email u) :: evs).
    split; [|split; [|split; [|split]]].
    + rewrite Hrun. unfold p2, after. cbn [userModels RetryTimes trace].
      rewrite <- !app_assoc. simpl.
      destruct (0 <? add64 up down)%N; rewrite <- ?app_assoc, ?app_nil_r;
        reflexivity.
    + repeat constructor. exact Hall.
    + rewrite length_app. destruct (0 <? add64 up down)%N; simpl; lia.
    + simpl. lia.
    + intros He. simpl. rewrite (Hok He). reflexivity.
Qed.

(** X3. [getTraffic] always returns, leaves the provisioned users and the
    retry counter as they were, and issues stats reads only: at most two per
    provisioned user, and exactly the downlink and uplink read of every user,
    in order, when it returns no error.  It returns at most one log per user,
    and none for an empty provisioned list. *)
Theorem getTraffic_frame (w : World) (cfg : Config) (p : Panel) :
  exists logs err evs,
    getTraffic w cfg p = Done (logs, err) (after p (userModels p) evs)
    /\ Forall (fun e => is_stats_read e = true) evs
    /\ (List.length evs <= 2 * List.length (userModels p))%nat
    /\ (List.length logs <= List.length (userModels p))%nat
    /\ (err = None -> evs = read_events (userModels p))
    /\ (userModels p = [] -> logs = [] /\ err = None /\ evs = []).
Proof.
  unfold getTraffic. run.
  destruct (getTraffic_loop_bounds w cfg (userModels p) [] p)
    as (new & err & evs & Hrun & Hall & Hnew & Hevs & Hok).
  exists new, err, evs. simpl in Hrun.
  split; [exact Hrun|]. split; [exact Hall|]. split; [exact Hevs|].
  split; [exact Hnew|]. split; [exact Hok|].
  intros Hnil. rewrite Hnil in *. simpl in *.
  unfold ret in Hrun. injection Hrun as H1 H2 H3.
  destruct new; [|simpl in Hnew; lia]. destruct evs; [auto | simpl in Hevs; lia].
Qed.

(** [getTraffic] against a stats service that succeeds and answers by label. *)
Lemma getTraffic_labelled (w : World) (cfg : Config) (p : Panel)
      (up down : string -> N) :
  (forall h m, stats_getUserDownlink w h m = inr (down m)) ->
  (forall h m, stats_getUserUplink w h m = inr (up m)) ->
  getTraffic w cfg p
  = Done (map (fun u => mkLog cfg u (up (Email u)) (down (Email u)))
              (filter (fun u => (0 <? add64 (up (Email u)) (down (Email u)))%N)
                      (userModels p)),
          None)
         (after p (userModels p) (read_events (userModels p))).
Proof.
  intros Hdown Hup. unfold getTraffic. run.
  assert (H : forall users logs q,
    getTraffic_loop w cfg users logs q
    = Done (logs ++ map (fun u => mkLog cfg u (up (Email u)) (down (Email u)))
                        (filter (fun u => (0 <? add64 (up (Email u))
                                                      (down (Email u)))%N) users),
            None)
           (after q (userModels q) (read_events users))).
  { induction users as [|u users IH]; intros logs q.
    - simpl. unfold ret. rewrite app_nil_r, after_nil. reflexivity.
    - rewrite (getTraffic_loop_read w cfg u users logs q _ _ (Hdown _ _) (Hup _ _)).
      rewrite IH. simpl. unfold after. cbn [userModels RetryTimes trace].
      rewrite <- !app_assoc. simpl.
      destruct (0 <? add64 (up (Email u)) (down (Email u)))%N; simpl;
        rewrite <- ?app_assoc; reflexivity. }
  rewrite H. reflexivity.
Qed.

(** X4. Against a stats service that succeeds and whose two answers depend
    on the label only, [getTraffic] returns, in the order of the provisioned
    list, one log for each user whose uplink and downlink have a positive
    uint64 sum, holding the two counts, the user's identifier and port, the
    node and the rate; users whose sum is zero, or wraps to zero, get none. *)
Theorem getTraffic_by_label (w : World) (cfg : Config) (p : Panel)
        (up down : string -> N) :
  (forall h m, stats_getUserDownlink w h m = inr (down m)) ->
  (forall h m, stats_getUserUplink w h m = inr (up m)) ->
  let active := filter (fun u => (0 <? add64 (up (Email u)) (down (Email u)))%N)
                       (userModels p) in
  getTraffic w cfg p
  = Done (map (fun u => mkLog cfg u (up (Email u)) (down (Email u))) active, None)
         (after p (userModels p) (read_events (userModels p)))
  /\ (forall u, In u active
                <-> In u (userModels p)
                    /\ ((up (Email u) + down (Email u)) mod 2 ^ 64 <> 0)%N)
  /\ (forall u, mkLog cfg u (up (Email u)) (down (Email u))
                = mkUserStatsLogs
                    (mkUserTrafficLog (ID u) (up (Email u)) (down (Email u))
                                      (NodeID cfg) (TrafficRate cfg) EmptyString)
                    (Port u)).
Proof.
  intros Hdown Hup active.
  split; [apply getTraffic_labelled; assumption|]. split; [|reflexivity].
  intros u. unfold active. rewrite filter_In, N.ltb_lt. unfold add64, two64.
  split; intros [H1 H2]; (split; [exact H1 | apply N.neq_0_lt_0; exact H2]).
Qed.

Lemma getTraffic_by_label_witness :
  getTraffic world_by_label (config false rate_2) (start [alice; bob; carol])
  = Done ([mkLog (config false rate_2) alice 1500 700], None)
         (mkPanel [alice; bob; carol] 0
            [EvGetUserDownlink "alice@x"; EvGetUserUplink "alice@x";
             EvGetUserDownlink "bob@x"; EvGetUserUplink "bob@x";
             EvGetUserDownlink "carol@x"; EvGetUserUplink "carol@x"]).
Proof.
  exact (proj1 (getTraffic_by_label world_by_label (config false rate_2)
                  (start [alice; bob; carol]) up_by_label down_by_label
                  (fun _ _ => eq_refl) (fun _ _ => eq_refl))).
Defined.

(** ** Reconciliation in every outcome *)

Section Invariants.

Variable w : World.
Variable cfg : Config.

(** The addition loop only appends, and what it appends are scheduled users,
    each at most as often as it was scheduled. *)
Lemma syncUser_add_users (adds : list UserModel) :
  forall (n : Z) (err : option Error) (p : Panel),
  exists sub,
    userModels (final (syncUser_add w cfg adds n err p)) = userModels p ++ sub
    /\ incl sub adds
    /\ (NoDup adds -> NoDup sub).
Proof.
  induction adds as [|a adds IH]; intros n err p.
  - exists []. simpl. rewrite app_nil_r.
    split; [reflexivity|]. split; [apply incl_refl | auto].
  - destruct (handler_AddUser w (trace p) (convertUser cfg a)) as [e|] eqn:Ha.
    + destruct (IgnoreEmptyVmessID cfg) eqn:Ht.
      * rewrite (syncUser_add_tolerated w cfg a adds n err p e Ha Ht).
        destruct (IH n (Some e) (after p (userModels p)
                   [EvAddUser (convertUser cfg a); EvLog Warning (AddUserErr e a)]))
          as (sub & Hsub & Hincl & Hnd).
        exists sub. split; [exact Hsub|]. split.
        -- apply incl_tl. exact Hincl.
        -- intros H. apply Hnd. inversion H; assumption.
      * rewrite (syncUser_add_fatal w cfg a adds n err p e Ha Ht).
        exists []. simpl. rewrite app_nil_r.
        split; [reflexivity|]. split; [intros x []| constructor].
    + rewrite (syncUser_add_success w cfg a adds n err p Ha).
      destruct (IH (n + 1) None (after p (userModels p ++ [a])
                 [EvAddUser (convertUser cfg a); EvLog Debug (AddedUser a)]))
        as (sub & Hsub & Hincl & Hnd).
      exists (a :: sub). split; [|split].
      * rewrite Hsub. unfold after. cbn [userModels].
        rewrite <- app_assoc. reflexivity.
      * intros x [<-|Hx]; [left; reflexivity | right; apply Hincl; exact Hx].
      * intros H. inversion H as [|? ? Hna Hnd']; subst. constructor.
        -- intros Hin. apply Hna. apply Hincl. exact Hin.
        -- apply Hnd. exact Hnd'.
Qed.

(** The provisioned users [syncUser] stops with, in every outcome, when the
    fetch lists [fetched]. *)
Lemma syncUser_users (p : Panel) (fetched : list UserModel)
      (r : Result (Z * Z * option Error)) :
  r = syncUser w cfg p ->
  db_GetAllUsers w (trace p) (NodeID cfg) = inr fetched ->
  (exists sub, userModels (final r) = filter (kept fetched) (userModels p) ++ sub
               /\ incl sub (addUserModels fetched (userModels p))
               /\ (NoDup fetched -> NoDup sub))
  \/ (exists l1 d l2, userModels p = l1 ++ d :: l2 /\ ~ In d fetched
                      /\ userModels (final r) = filter (kept fetched) l1 ++ l2)
  \/ (fetched = [] /\ userModels (final r) = userModels p).
Proof.
  intros Hr Hget.
  destruct fetched as [|f fetched].
  { right. right. rewrite (syncUser_empty w cfg p Hget) in Hr. subst r.
    split; reflexivity. }
  assert (Hne : f :: fetched <> []) by discriminate.
  rewrite (syncUser_fetched w cfg p _ Hget Hne) in Hr.
  unfold bind at 1 in Hr.
  destruct (syncUser_delete_phase w cfg p (f :: fetched))
    as [H|(l1 & d & l2 & e & Hl & Hd & He & H)]; cbv zeta in H; rewrite H in Hr;
    cbn [snd fst] in Hr.
  - left. unfold bind in Hr.
    set (p1 := after p _ _) in Hr.
    destruct (syncUser_add_users (addUserModels (f :: fetched) (userModels p))
                                 0 None p1) as (sub & Hsub & Hincl & Hnd).
    exists sub. split; [|split; [exact Hincl|]].
    + destruct (syncUser_add w cfg _ 0 None p1) as [a q|q];
        unfold ret in Hr; subst r; cbn [final] in *; exact Hsub.
    + intros Hf. apply Hnd. unfold addUserModels. apply NoDup_filter. exact Hf.
  - right. left. exists l1, d, l2. unfold ret in Hr. subst r.
    split; [exact Hl|]. split; [exact Hd | reflexivity].
Qed.

Lemma NoDup_filter_app (f : UserModel -> bool) (l1 l2 : list UserModel) :
  NoDup (l1 ++ l2) -> NoDup (filter f l1 ++ l2).
Proof.
  induction l1 as [|a l1 IH]; simpl; intros H; [exact H|].
  inversion H as [|? ? Hna Hnd]; subst.
  destruct (f a); [|apply IH; exact Hnd].
  simpl. constructor; [|apply IH; exact Hnd].
  intros Hin. apply Hna. apply in_app_or in Hin. apply in_or_app.
  destruct Hin as [Hin|Hin]; [left | right; exact Hin].
  apply filter_In in Hin. tauto.
Qed.

End Invariants.



(** X8. [syncUser] never provisions a record twice: when the provisioned
    list and the fetched list are free of duplicates, so is the provisioned
    list it stops with, whichever calls fail and even when it halts. *)
Theorem syncUser_keeps_NoDup (w : World) (cfg : Config) (p : Panel)
        (fetched : list UserModel) :
  db_GetAllUsers w (trace p) (NodeID cfg) = inr fetched ->
  NoDup (userModels p) ->
  NoDup fetched ->
  NoDup (userModels (final (syncUser w cfg p))).
Proof.
  intros Hget Hp Hf.
  destruct (syncUser_users w cfg p fetched _ eq_refl Hget)
    as [(sub & -> & Hincl & Hnd)|[(l1 & d & l2 & Hl & _ & ->)|(_ & ->)]].
  - apply NoDup_app.
    + apply NoDup_filter. exact Hp.
    + apply Hnd. exact Hf.
    + intros a Ha Hsub. apply filter_In in Ha. apply Hincl in Hsub.
      apply addUserModels_In in Hsub. tauto.
  - apply NoDup_filter_app. rewrite Hl in Hp.
    apply NoDup_remove_1 in Hp. exact Hp.
  - exact Hp.
Qed.

Lemma syncUser_keeps_NoDup_witness :
  NoDup (userModels (final (syncUser world_add_bob_fails (config true rate_1)
                                     (start [alice'])))).
Proof.
  apply (syncUser_keeps_NoDup world_add_bob_fails (config true rate_1)
           (start [alice']) [bob; alice] eq_refl).
  - constructor; [intros [] | constructor].
  - constructor; [intros [H|[]]; discriminate H|].
    constructor; [intros [] | constructor].
Defined.

(** X9. Whatever fails, [syncUser] provisions nobody it was not told to
    and drops nobody it was told to keep: every record provisioned when it
    stops was provisioned before or is in the fetched list, and every record
    that was provisioned and is in the fetched list is still provisioned. *)
Theorem syncUser_stays_within_fetch (w : World) (cfg : Config) (p : Panel)
        (fetched : list UserModel) :
  db_GetAllUsers w (trace p) (NodeID cfg) = inr fetched ->
  let q := final (syncUser w cfg p) in
  (forall u, In u (userModels q) -> In u (userModels p) \/ In u fetched)
  /\ (forall u, In u (userModels p) -> In u fetched -> In u (userModels q)).
Proof.
  intros Hget q. unfold q.
  destruct (syncUser_users w cfg p fetched _ eq_refl Hget)
    as [(sub & -> & Hincl & _)|[(l1 & d & l2 & Hl & Hd & ->)|(_ & ->)]].
  - split.
    + intros u Hu. apply in_app_or in Hu. destruct Hu as [Hu|Hu].
      * apply filter_In in Hu. tauto.
      * apply Hincl, addUserModels_In in Hu. tauto.
    + intros u Hp Hf. apply in_or_app. left. apply filter_kept_In. auto.
  - rewrite Hl. split.
    + intros u Hu. left. apply in_app_or in Hu. apply in_or_app.
      destruct Hu as [Hu|Hu]; [left; apply filter_In in Hu; tauto|].
      right. right. exact Hu.
    + intros u Hp Hf. apply in_app_or in Hp. apply in_or_app.
      destruct Hp as [Hp|[Hp|Hp]].
      * left. apply filter_kept_In. auto.
      * subst u. contradiction.
      * right. exact Hp.
  - split; auto.
Qed.

Lemma syncUser_stays_within_fetch_witness :
  In alice' (userModels (final (syncUser world_del_bob_fails (config false rate_1)
                                         (start [alice; bob; alice'])))).
Proof.
  apply (proj2 (syncUser_stays_within_fetch world_del_bob_fails
                  (config false rate_1) (start [alice; bob; alice']) [alice']
                  eq_refl) alice').
  - right. right. left. reflexivity.
  - left. reflexivity.
Defined.

(** ** Reconciliation when calls fail *)

Section Failures.

Variable w : World.
Variable cfg : Config.

(** The removal loop up to the first call that fails. *)
Lemma syncUser_delete_until (keep : UserModel -> bool) (l1 : list UserModel) :
  forall (pre : list UserModel) (n : Z) (p : Panel) (d : UserModel)
         (l2 : list UserModel) (e : Error),
    userModels p = pre ++ l1 ++ d :: l2 ->
    Forall (fun u => keep u = true) pre ->
    keep d = false ->
    (forall h x, In x l1 -> keep x = false ->
                 handler_DelUser w h (Email x) = None) ->
    handler_DelUser w (trace p ++ del_events (rejected keep l1)) (Email d)
    = Some e ->
    syncUser_delete w (rejected keep (l1 ++ d :: l2)) n p
    = Done (n + Z.of_nat (List.length (rejected keep l1)), Some e)
           (after p (pre ++ filter keep l1 ++ l2)
                  (del_events (rejected keep l1) ++ [EvDelUser (Email d)])).
Proof.
  induction l1 as [|a l1 IH]; intros pre n p d l2 e Hp Hpre Kd Hok Hfail.
  - change ([] ++ d :: l2) with (d :: l2) in *.
    destruct (rejected_drop keep d l2 Kd) as [-> _].
    assert (Hnot : ~ In d pre).
    { intros Hin. rewrite Forall_forall in Hpre. apply Hpre in Hin. congruence. }
    simpl in Hp, Hfail. rewrite app_nil_r in Hfail.
    run. rewrite Hp. unfold findUserModelIndex.
    rewrite find_from_first by exact Hnot. rewrite Z.add_0_l.
    destruct (Z.of_nat (List.length pre) =? -1) eqn:E; [apply Z.eqb_eq in E; lia|].
    rewrite remove_at_middle. run. rewrite Hfail. run.
    simpl. rewrite Z.add_0_r. reflexivity.
  - destruct (keep a) eqn:Ka;
      change ((a :: l1) ++ d :: l2) with (a :: (l1 ++ d :: l2)) in *.
    + destruct (rejected_keep keep a (l1 ++ d :: l2) Ka) as [-> _].
      destruct (rejected_keep keep a l1 Ka) as [Hr Hf]. rewrite Hr, Hf.
      rewrite Hr in Hfail.
      rewrite (IH (pre ++ [a]) n p d l2 e).
      * rewrite <- !app_assoc. reflexivity.
      * rewrite Hp, <- app_assoc. reflexivity.
      * apply Forall_app. split; [exact Hpre|]. repeat constructor. exact Ka.
      * exact Kd.
      * intros h x Hx. apply Hok. right. exact Hx.
      * exact Hfail.
    + destruct (rejected_drop keep a (l1 ++ d :: l2) Ka) as [-> _].
      destruct (rejected_drop keep a l1 Ka) as [Hr Hf]. rewrite Hr, Hf.
      rewrite Hr in Hfail.
      assert (Hnot : ~ In a pre).
      { intros Hin. rewrite Forall_forall in Hpre. apply Hpre in Hin. congruence. }
      run. rewrite Hp. unfold findUserModelIndex.
      change (pre ++ a :: l1 ++ d :: l2) with (pre ++ a :: (l1 ++ d :: l2)).
      rewrite find_from_first by exact Hnot. rewrite Z.add_0_l.
      destruct (Z.of_nat (List.length pre) =? -1) eqn:E; [apply Z.eqb_eq in E; lia|].
      rewrite remove_at_middle. run.
      rewrite (Hok (trace p) a (or_introl eq_refl) Ka). run.
      set (p1 := mkPanel (pre ++ l1 ++ d :: l2) (RetryTimes p)
                         ((trace p ++ [EvDelUser (Email a)])
                            ++ [EvLog Debug (DeletedUser a)])).
      rewrite (IH pre (n + 1) p1 d l2 e).
      * f_equal.
        -- f_equal. simpl List.length. lia.
        -- unfold after, p1. simpl. rewrite <- !app_assoc. reflexivity.
      * reflexivity.
      * exact Hpre.
      * exact Kd.
      * intros h x Hx. apply Hok. right. exact Hx.
      * rewrite <- Hfail. unfold p1. simpl. rewrite <- !app_assoc. reflexivity.
Qed.

(** [syncUser] under a configuration that tolerates failed additions, when
    every removal succeeds and the answer to an addition depends on its
    payload only. *)
Lemma syncUser_tolerant_run (p : Panel) (fetched : list UserModel)
      (answer : ProtocolUser -> option Error) :
  db_GetAllUsers w (trace p) (NodeID cfg) = inr fetched ->
  fetched <> [] ->
  IgnoreEmptyVmessID cfg = true ->
  (forall h a, handler_DelUser w h a = None) ->
  (forall h x, handler_AddUser w h x = answer x) ->
  let adds := addUserModels fetched (userModels p) in
  let dels := delUserModels fetched (userModels p) in
  let good := filter (fun u => succeeded (answer (convertUser cfg u))) adds in
  syncUser w cfg p
  = Done (Z.of_nat (List.length good), Z.of_nat (List.length dels),
          fold_left (fun _ u => answer (convertUser cfg u)) adds None)
         (after p (filter (kept fetched) (userModels p) ++ good)
                (EvGetAllUsers (NodeID cfg)
                   :: del_events dels
                   ++ flat_map (fun u => attempt_events cfg
                                           (answer (convertUser cfg u)) u) adds)).
Proof.
  intros Hget Hne Ht Hdel Hadd adds dels good.
  rewrite (syncUser_fetched w cfg p fetched Hget Hne). unfold bind at 1.
  destruct (syncUser_delete_phase w cfg p fetched)
    as [H|(l1 & d & l2 & e & _ & _ & He & _)];
    [|rewrite Hdel in He; discriminate].
  cbv zeta in H. rewrite H. cbn [snd fst]. unfold bind.
  rewrite (syncUser_add_tolerant w cfg answer _ Hadd Ht). unfold ret.
  cbn [fst snd]. f_equal. unfold after. cbn [userModels RetryTimes trace].
  rewrite <- app_assoc. reflexivity.
Qed.

End Failures.

(** X6. When the fetch of the authoritative list fails, [syncUser] returns
    (0, 0, err) having made the fetch only: no add call, no remove call, the
    provisioned users untouched.  A cycle that gets as far as reconciliation
    then still returns nil, with the provisioned users it started with. *)
Theorem syncUser_fetch_error (w : World) (cfg : Config) (e : Error) :
  (forall h, db_GetAllUsers w h (NodeID cfg) = inl e) ->
  (forall p,
      syncUser w cfg p
      = Done (0, 0, Some e) (after p (userModels p) [EvGetAllUsers (NodeID cfg)]))
  /\ (forall p,
         reaches_traffic w cfg p ->
         (forall x, ~ read_fails w (trace (at_traffic w cfg p)) (userModels p) x) ->
         exists h t,
           do w cfg p
           = Done None
                  (mkPanel (userModels p) 0
                           (h ++ [EvGetAllUsers (NodeID cfg); summary w 0 0 t]))).
Proof.
  intros Hget.
  assert (Hrun : forall p,
             syncUser w cfg p
             = Done (0, 0, Some e)
                    (after p (userModels p) [EvGetAllUsers (NodeID cfg)])).
  { intros p. unfold syncUser. run. rewrite Hget. reflexivity. }
  split; [exact Hrun|].
  intros p Hreach Hreads.
  destruct (getTraffic_succeeds w cfg (at_traffic w cfg p) Hreads)
    as (logs & p2 & Htraffic).
  destruct (getTraffic_outcome w cfg (at_traffic w cfg p))
    as (logs' & err & evs & Hframe & _).
  rewrite Htraffic in Hframe. injection Hframe as _ _ Hp2.
  destruct (do_after_traffic w cfg p p2 logs Hreach Htraffic) as (Hdone & _).
  cbv zeta in Hdone. rewrite (Hdone _ _ (Hrun _)). cbn [fst snd].
  exists (trace p2 ++ account_events w cfg (trace p2) logs), (tally_of w cfg logs).
  f_equal. unfold after. cbn [userModels RetryTimes trace].
  rewrite Hp2. unfold after, at_traffic. cbn [userModels RetryTimes trace].
  rewrite <- !app_assoc. reflexivity.
Qed.

Lemma world_fetch_fails_reads_ok (h : History) (users : list UserModel) (e : Error) :
  ~ read_fails world_fetch_fails h users e.
Proof. intros H. induction H; [discriminate | discriminate | assumption]. Qed.

Lemma syncUser_fetch_error_witness :
  exists h t,
    do world_fetch_fails (config false rate_1) (start [alice])
    = Done None
           (mkPanel [alice] 0
              (h ++ [EvGetAllUsers 7; summary world_fetch_fails 0 0 t])).
Proof.
  exact (proj2 (syncUser_fetch_error world_fetch_fails (config false rate_1)
                  "query failed"%string (fun _ => eq_refl))
               (start [alice]) (conj eq_refl eq_refl)
               (world_fetch_fails_reads_ok _ _)).
Defined.

(** X10. A removal whose call fails is dropped from the provisioned list
    all the same, since the entry is cut out before the call is made.  With a
    provisioned list free of duplicates, [syncUser] then stops with the user
    no longer provisioned, so no later run can schedule a remove call for it,
    whatever list it fetches. *)
Theorem failed_removal_is_forgotten (w : World) (cfg : Config) (p : Panel)
        (fetched l1 l2 : list UserModel) (d : UserModel) (e : Error) :
  db_GetAllUsers w (trace p) (NodeID cfg) = inr fetched ->
  fetched <> [] ->
  userModels p = l1 ++ d :: l2 ->
  NoDup (userModels p) ->
  ~ In d fetched ->
  (forall h x, In x l1 -> ~ In x fetched -> handler_DelUser w h (Email x) = None) ->
  (forall h, handler_DelUser w h (Email d) = Some e) ->
  let q := after p (filter (kept fetched) l1 ++ l2)
                 (EvGetAllUsers (NodeID cfg)
                    :: del_events (delUserModels fetched l1)
                    ++ [EvDelUser (Email d)]) in
  syncUser w cfg p
  = Done (0, Z.of_nat (List.length (delUserModels fetched l1)), Some e) q
  /\ ~ In d (userModels q)
  /\ (forall fetched', ~ In d (delUserModels fetched' (userModels q))).
Proof.
  intros Hget Hne Hp Hnd Hd Hok Hfail q.
  assert (Hgone : ~ In d (userModels q)).
  { unfold q, after. cbn [userModels]. rewrite Hp in Hnd.
    apply NoDup_remove_2 in Hnd. intros Hin. apply Hnd.
    apply in_app_or in Hin. apply in_or_app.
    destruct Hin as [Hin|Hin]; [left; apply filter_In in Hin; tauto | right; exact Hin]. }
  split; [|split; [exact Hgone|]].
  - rewrite (syncUser_fetched w cfg p fetched Hget Hne). unfold bind at 1.
    set (p0 := after p (userModels p) [EvGetAllUsers (NodeID cfg)]).
    rewrite delUserModels_rejected, Hp.
    rewrite (syncUser_delete_until w (kept fetched) l1 [] 0 p0 d l2 e).
    + cbn [snd fst]. unfold ret. rewrite delUserModels_rejected.
      f_equal. unfold q, p0, after. cbn [userModels RetryTimes trace].
      rewrite <- app_assoc. reflexivity.
    + unfold p0, after. cbn [userModels]. rewrite Hp. reflexivity.
    + constructor.
    + apply inUserModels_not_In. exact Hd.
    + intros h x Hx Kx. apply Hok; [exact Hx|].
      apply inUserModels_not_In. exact Kx.
    + apply Hfail.
  - intros fetched' Hin. apply delUserModels_In in Hin. tauto.
Qed.

Lemma failed_removal_is_forgotten_witness :
  syncUser world_del_bob_fails (config false rate_1) (start [alice; bob; alice'])
  = Done (0, 1, Some "rpc error"%string)
         (mkPanel [alice'] 0
            [EvGetAllUsers 7;
             EvDelUser "alice@x"; EvLog Debug (DeletedUser alice);
             EvDelUser "bob@x"]).
Proof.
  refine (proj1 (failed_removal_is_forgotten world_del_bob_fails
                   (config false rate_1) (start [alice; bob; alice'])
                   [alice'] [alice] [alice'] bob "rpc error"%string
                   eq_refl ltac:(discriminate) eq_refl _ _ _ (fun _ => eq_refl))).
  - constructor; [intros [H|[H|[]]]; discriminate H|].
    constructor; [intros [H|[]]; discriminate H|].
    constructor; [intros [] | constructor].
  - intros [H|[]]; discriminate H.
  - intros h x [<-|[]] _. reflexivity.
Defined.

(** X11. An addition that fails under a tolerant configuration is tried
    again by the next run: the user is not appended, a warning is logged, and
    as long as the fetched list holds the user the next difference schedules
    the addition again. *)
Theorem tolerated_add_failure_is_retried (w : World) (cfg : Config) (p : Panel)
        (fetched : list UserModel) (answer : ProtocolUser -> option Error)
        (u : UserModel) (e : Error) :
  db_GetAllUsers w (trace p) (NodeID cfg) = inr fetched ->
  IgnoreEmptyVmessID cfg = true ->
  (forall h a, handler_DelUser w h a = None) ->
  (forall h x, handler_AddUser w h x = answer x) ->
  In u fetched ->
  ~ In u (userModels p) ->
  answer (convertUser cfg u) = Some e ->
  exists r q,
    syncUser w cfg p = Done r q
    /\ In (EvLog Warning (AddUserErr e u)) (trace q)
    /\ ~ In u (userModels q)
    /\ In u (addUserModels fetched (userModels q)).
Proof.
  intros Hget Ht Hdel Hadd Hin Hnot Hans.
  assert (Hne : fetched <> []) by (intros ->; destruct Hin).
  pose proof (syncUser_tolerant_run w cfg p fetched answer Hget Hne Ht Hdel Hadd)
    as Hrun.
  cbv zeta in Hrun. rewrite Hrun. eexists. eexists. split; [reflexivity|].
  assert (Hgone : ~ In u (filter (kept fetched) (userModels p)
                            ++ filter (fun x => succeeded (answer (convertUser cfg x)))
                                      (addUserModels fetched (userModels p)))).
  { intros H. apply in_app_or in H. destruct H as [H|H].
    - apply filter_In in H. tauto.
    - apply filter_In in H. destruct H as [_ H]. rewrite Hans in H. discriminate. }
  split; [|split].
  - unfold after. cbn [trace]. apply in_or_app. right. right.
    apply in_or_app. right. apply in_flat_map. exists u. split.
    + apply addUserModels_In. auto.
    + rewrite Hans. simpl. auto.
  - exact Hgone.
  - apply addUserModels_In. split; [exact Hin | exact Hgone].
Qed.

Lemma tolerated_add_failure_is_retried_witness :
  exists r q,
    syncUser world_add_bob_fails (config true rate_1) (start []) = Done r q
    /\ In (EvLog Warning (AddUserErr "bad id"%string bob)) (trace q)
    /\ ~ In bob (userModels q)
    /\ In bob (addUserModels [bob; alice] (userModels q)).
Proof.
  exact (tolerated_add_failure_is_retried world_add_bob_fails
           (config true rate_1) (start []) [bob; alice]
           (fun x => if String.eqb (user_Email x) "bob@x"
                     then Some "bad id"%string else None)
           bob "bad id"%string eq_refl eq_refl (fun _ _ => eq_refl)
           (fun _ _ => eq_refl) (or_introl eq_refl) (fun H => H) eq_refl).
Defined.

(** ** The cycle in every outcome *)

Section CycleOutcomes.

Variable w : World.
Variable cfg : Config.

Lemma do_heartbeat_failed (p : Panel) (e : Error) :
  db_Ping w (trace p) = None ->
  db_CreateNodeInfo w (trace p ++ [EvPing]) (heartbeat w cfg (trace p ++ [EvPing]))
  = Some e ->
  do w cfg p
  = Done (Some e)
         (mkPanel (userModels p) 0
                  (trace p ++ [EvPing;
                               EvCreateNodeInfo (heartbeat w cfg (trace p ++ [EvPing]));
                               summary w 0 0 tally0])).
Proof.
  intros Hping Hbeat. rewrite (do_ping_ok w cfg p Hping).
  rewrite (do_body_heartbeat_failed w cfg
             (mkPanel (userModels p) 0 (trace p ++ [EvPing])) e Hbeat).
  unfold deferred, after. cbn [userModels RetryTimes trace].
  rewrite <- !app_assoc. reflexivity.
Qed.

(** [do] returns, unless it meets the fatal stop. *)
Lemma do_outcome (p : Panel) :
  (exists err q, do w cfg p = Done err q) \/ fatal_stop w cfg (do w cfg p).
Proof.
  destruct (db_Ping w (trace p)) as [x|] eqn:Hping.
  { left. rewrite (do_ping_failed w cfg p x Hping). eauto. }
  destruct (db_CreateNodeInfo w (trace p ++ [EvPing])
                              (heartbeat w cfg (trace p ++ [EvPing])))
    as [x|] eqn:Hbeat.
  { left. rewrite (do_heartbeat_failed p x Hping Hbeat). eauto. }
  assert (Hreach : reaches_traffic w cfg p) by (split; assumption).
  destruct (getTraffic_outcome w cfg (at_traffic w cfg p))
    as (logs & err & evs & Hrun & _).
  destruct err as [x|].
  - left. destruct (do_on_traffic_error w cfg p _ logs x Hreach Hrun) as [H _].
    rewrite H. eauto.
  - destruct (do_after_traffic w cfg p _ logs Hreach Hrun) as (_ & [(q & H)|H]).
    + left. eauto.
    + right. exact H.
Qed.

Lemma no_accounting_in_reads (users : list UserModel) :
  filter is_accounting_write (read_events users) = [].
Proof. induction users as [|u users IH]; simpl; [reflexivity | exact IH]. Qed.

Lemma no_accounting_in_sync (evs : list Event) :
  Forall (fun e => is_sync_event e = true) evs ->
  filter is_accounting_write evs = [].
Proof.
  induction 1 as [|e evs He _ IH]; simpl; [reflexivity|].
  destruct e; simpl in *; try discriminate; exact IH.
Qed.

Lemma no_snapshot_in_sync (evs : list Event) :
  Forall (fun e => is_sync_event e = true) evs ->
  filter is_online_snapshot evs = [].
Proof.
  induction 1 as [|e evs He _ IH]; simpl; [reflexivity|].
  destruct e; simpl in *; try discriminate; exact IH.
Qed.

Lemma no_snapshot_in_rows (logs : list userStatsLogs) :
  filter is_online_snapshot (row_events w cfg logs) = [].
Proof. induction logs as [|l logs IH]; simpl; [reflexivity | exact IH]. Qed.

Lemma no_snapshot_in_update (h : History) (t : Tally) :
  filter is_online_snapshot (update_events w h t) = [].
Proof.
  unfold update_events.
  destruct (nonempty (uVals t) && nonempty (dVals t)); reflexivity.
Qed.

Lemma totals_fold (logs : list UserTrafficLog) :
  forall t : Tally,
    (uplinkTotal t < two64)%N -> (downlinkTotal t < two64)%N ->
    let t' := fold_left (tally_step w cfg) logs t in
    uplinkTotal t' = ((uplinkTotal t + total (map Uplink logs)) mod two64)%N
    /\ downlinkTotal t' = ((downlinkTotal t + total (map Downlink logs)) mod two64)%N.
Proof.
  assert (H64 : two64 <> 0%N) by discriminate.
  induction logs as [|l logs IH]; intros t Hu Hd; cbv zeta.
  - simpl. rewrite !N.add_0_r, !N.mod_small by assumption. auto.
  - simpl fold_left.
    destruct (IH (tally_step w cfg t l)) as (H1 & H2);
      [simpl; apply N.mod_lt; exact H64 | simpl; apply N.mod_lt; exact H64 |].
    rewrite H1, H2. simpl. unfold add64.
    rewrite !N.Div0.add_mod_idemp_l, !N.add_assoc. auto.
Qed.

End CycleOutcomes.

(** X12. [do] stops in one of two ways only: it returns, or the process
    halts at an add call that failed under a configuration that does not
    tolerate it.  So under a tolerant configuration, and whenever every add
    call succeeds, [do] always returns, whatever else fails. *)
Theorem do_returns_unless_fatal (w : World) (cfg : Config) (p : Panel) :
  ((exists err q, do w cfg p = Done err q) \/ fatal_stop w cfg (do w cfg p))
  /\ (IgnoreEmptyVmessID cfg = true -> exists err q, do w cfg p = Done err q)
  /\ ((forall h x, handler_AddUser w h x = None) ->
      exists err q, do w cfg p = Done err q).
Proof.
  pose proof (do_outcome w cfg p) as H. split; [exact H|]. split.
  - intros Ht. destruct H as [H|(Hf & _)]; [exact H | congruence].
  - intros Hadd. destruct H as [H|(_ & h & e & u & _ & Hu)]; [exact H|].
    rewrite Hadd in Hu. discriminate.
Qed.

Lemma do_returns_unless_fatal_witness :
  exists err q,
    do world_all_broken (config true rate_1) (start [alice]) = Done err q.
Proof.
  exact (proj1 (proj2 (do_returns_unless_fatal world_all_broken
                         (config true rate_1) (start [alice]))) eq_refl).
Defined.

(** X13. The only errors [do] ever returns are the error of the heartbeat
    write and the error of a failed stats read: it returns [e] exactly when
    the ping succeeded and either the heartbeat write failed with [e], or it
    succeeded and a stats read failed with [e].  A failed ping, a failed
    insert, update, fetch, add or remove never shows in the return value. *)
Theorem do_error_iff (w : World) (cfg : Config) (p : Panel) (e : Error) :
  (exists q, do w cfg p = Done (Some e) q)
  <-> db_Ping w (trace p) = None
      /\ (db_CreateNodeInfo w (trace p ++ [EvPing])
                            (heartbeat w cfg (trace p ++ [EvPing])) = Some e
          \/ (db_CreateNodeInfo w (trace p ++ [EvPing])
                                (heartbeat w cfg (trace p ++ [EvPing])) = None
              /\ read_fails w (trace (at_traffic w cfg p)) (userModels p) e)).
Proof.
  split.
  - intros (q & Hdo).
    destruct (db_Ping w (trace p)) as [x|] eqn:Hping.
    { rewrite (do_ping_failed w cfg p x Hping) in Hdo. discriminate. }
    split; [reflexivity|].
    destruct (db_CreateNodeInfo w (trace p ++ [EvPing])
                                (heartbeat w cfg (trace p ++ [EvPing])))
      as [x|] eqn:Hbeat.
    { rewrite (do_heartbeat_failed w cfg p x Hping Hbeat) in Hdo.
      injection Hdo as -> _. left. reflexivity. }
    right. split; [reflexivity|].
    assert (Hreach : reaches_traffic w cfg p) by (split; assumption).
    destruct (getTraffic_outcome w cfg (at_traffic w cfg p))
      as (logs & err & evs & Hrun & _).
    destruct err as [x|].
    + destruct (do_on_traffic_error w cfg p _ logs x Hreach Hrun) as [H _].
      rewrite H in Hdo. injection Hdo as -> _.
      apply (getTraffic_error_iff w cfg (at_traffic w cfg p) e). eauto.
    + destruct (do_after_traffic w cfg p _ logs Hreach Hrun)
        as (_ & [(q' & H)|(_ & h & x & u & H & _)]);
        rewrite H in Hdo; discriminate.
  - intros (Hping & [Hbeat|(Hbeat & Hfail)]).
    + rewrite (do_heartbeat_failed w cfg p e Hping Hbeat). eauto.
    + assert (Hreach : reaches_traffic w cfg p) by (split; assumption).
      destruct (proj2 (getTraffic_error_iff w cfg (at_traffic w cfg p) e) Hfail)
        as (logs & p2 & Hrun).
      destruct (do_on_traffic_error w cfg p p2 logs e Hreach Hrun) as [H _].
      rewrite H. eauto.
Qed.

(** X14. When the heartbeat write fails, [do] returns its error at once:
    the retry counter is zero, the provisioned users are unchanged, and the
    history of the cycle is the ping, the heartbeat and the summary line with
    all counts zero; no stats read, no other write, no reconciliation. *)
Theorem do_heartbeat_failure (w : World) (cfg : Config) (p : Panel) (e : Error) :
  db_Ping w (trace p) = None ->
  db_CreateNodeInfo w (trace p ++ [EvPing]) (heartbeat w cfg (trace p ++ [EvPing]))
  = Some e ->
  do w cfg p
  = Done (Some e)
         (mkPanel (userModels p) 0
                  (trace p ++ [EvPing;
                               EvCreateNodeInfo (heartbeat w cfg (trace p ++ [EvPing]));
                               EvLog Debug (Summary 0 0 (bytefmt_ByteSize w 0)
                                                    (bytefmt_ByteSize w 0) 0)])).
Proof. apply do_heartbeat_failed. Qed.

Lemma do_heartbeat_failure_witness :
  do world_no_writes (config false rate_1) (mkPanel [alice] 3 [])
  = Done (Some "read-only"%string)
         (mkPanel [alice] 0
            [EvPing; EvCreateNodeInfo (mkNodeInfo 7 60 "0.10 0.20 0.30");
             EvLog Debug (Summary 0 0 "0B" "0B" 0)]).
Proof.
  exact (do_heartbeat_failure world_no_writes (config false rate_1)
           (mkPanel [alice] 3 []) "read-only"%string eq_refl eq_refl).
Defined.



(** X16. After the stats reads, [do] writes at most one online snapshot:
    none when no log has a raw uint64 sum above 2048, even though rows are
    written for such logs, and otherwise exactly one, holding the node and
    the number of logs above 2048. *)
Theorem online_snapshot_once (w : World) (cfg : Config)
        (logs : list userStatsLogs) (q : Panel) :
  let online := filter is_online (map embedded logs) in
  exists evs,
    trace (final (do_account w cfg logs q)) = trace q ++ evs
    /\ filter is_online_snapshot evs
       = match online with
         | [] => []
         | _ => [EvCreateNodeOnlineLog
                   (mkNodeOnlineLog (NodeID cfg)
                                    (Z.of_nat (List.length online)))]
         end
    /\ filter (fun e => match e with EvCreateUserTrafficLog _ => true
                                   | _ => false end) evs
       = row_events w cfg logs.
Proof.
  intros online. rewrite do_account_run.
  set (p3 := after q (userModels q) (account_events w cfg (trace q) logs)).
  destruct (syncUser_outcome w cfg p3) as ((sevs & Hsevs & Hsync) & _ & _).
  destruct (tally_fold w cfg (map embedded logs) tally0) as (Hon & _).
  cbv zeta in Hon.
  change (fold_left (tally_step w cfg) (map embedded logs) tally0)
    with (tally_of w cfg logs) in Hon.
  cbn [tally0 onlineUsers] in Hon. rewrite Z.add_0_l in Hon.
  change (filter (fun l => (2048 <? add64 (Uplink l) (Downlink l))%N)
                 (map embedded logs)) with online in Hon.
  exists (account_events w cfg (trace q) logs ++ sevs).
  split; [|split].
  - destruct (syncUser w cfg p3) as [s q'|q']; cbn [final] in *;
      rewrite Hsevs; unfold p3, after; cbn [trace];
      rewrite <- app_assoc; reflexivity.
  - unfold account_events. rewrite !filter_app.
    rewrite no_snapshot_in_rows, no_snapshot_in_update,
      (no_snapshot_in_sync sevs Hsync), !app_nil_r. simpl.
    unfold online_events. rewrite Hon.
    destruct online as [|o online']; [reflexivity|].
    replace (0 <? Z.of_nat (List.length (o :: online'))) with true
      by (symmetry; apply Z.ltb_lt; simpl List.length; lia).
    reflexivity.
  - unfold account_events. rewrite !filter_app.
    assert (Hrows : forall l, filter (fun e => match e with
                                               | EvCreateUserTrafficLog _ => true
                                               | _ => false end)
                                     (row_events w cfg l) = row_events w cfg l).
    { induction l as [|x l IH]; simpl; [reflexivity | f_equal; exact IH]. }
    rewrite Hrows.
    assert (Hon' : filter (fun e => match e with EvCreateUserTrafficLog _ => true
                                                | _ => false end)
                          (online_events cfg (tally_of w cfg logs)) = []).
    { unfold online_events. destruct (0 <? _); reflexivity. }
    assert (Hup : forall h, filter (fun e => match e with
                                             | EvCreateUserTrafficLog _ => true
                                             | _ => false end)
                                   (update_events w h (tally_of w cfg logs)) = []).
    { intros h. unfold update_events. destruct (_ && _); reflexivity. }
    rewrite Hon', Hup.
    assert (Hs : filter (fun e => match e with EvCreateUserTrafficLog _ => true
                                              | _ => false end) sevs = []).
    { clear Hsevs. induction Hsync as [|e evs He _ IH]; simpl; [reflexivity|].
      destruct e; simpl in *; try discriminate; exact IH. }
    rewrite Hs, !app_nil_r. reflexivity.
Qed.

(** X17. The totals of the summary line are the raw totals, not the billed
    ones: the uint64 sum (modulo 2^64) of the raw uplinks, respectively
    downlinks, of the logs.  They do not depend on the billing rate. *)
Theorem summary_reports_raw_totals (w : World) (cfg : Config)
        (logs : list userStatsLogs) (added deleted : Z) :
  let rows := map embedded logs in
  uplinkTotal (tally_of w cfg logs) = (total (map Uplink rows) mod two64)%N
  /\ downlinkTotal (tally_of w cfg logs) = (total (map Downlink rows) mod two64)%N
  /\ summary w added deleted (tally_of w cfg logs)
     = EvLog Debug
             (Summary added deleted
                (bytefmt_ByteSize w (total (map Downlink rows) mod two64)%N)
                (bytefmt_ByteSize w (total (map Uplink rows) mod two64)%N)
                (Z.of_nat (List.length (filter is_online rows)))).
Proof.
  intros rows.
  destruct (totals_fold w cfg rows tally0) as (Hu & Hd); [reflexivity..|].
  destruct (tally_fold w cfg rows tally0) as (Hon & _).
  cbv zeta in Hu, Hd, Hon.
  change (fold_left (tally_step w cfg) rows tally0) with (tally_of w cfg logs)
    in Hu, Hd, Hon.
  cbn [tally0 uplinkTotal downlinkTotal onlineUsers] in Hu, Hd, Hon.
  rewrite N.add_0_l in Hu, Hd. rewrite Z.add_0_l in Hon.
  split; [exact Hu|]. split; [exact Hd|].
  unfold summary. rewrite Hu, Hd, Hon. reflexivity.
Qed.

(** X18. A cycle in which every provisioned user is idle (the uint64 sum
    of uplink and downlink is zero for each) writes no traffic row, no online
    snapshot and no bulk update: after the heartbeat it reads the stats and
    goes straight to reconciliation. *)
Theorem idle_cycle_writes_nothing (w : World) (cfg : Config) (p : Panel)
        (up down : string -> N) :
  reaches_traffic w cfg p ->
  (forall h m, stats_getUserDownlink w h m = inr (down m)) ->
  (forall h m, stats_getUserUplink w h m = inr (up m)) ->
  (forall u, In u (userModels p) -> add64 (up (Email u)) (down (Email u)) = 0%N) ->
  exists sevs,
    trace (final (do w cfg p))
    = trace (at_traffic w cfg p) ++ read_events (userModels p) ++ sevs
    /\ filter is_accounting_write sevs = [].
Proof.
  intros Hreach Hdown Hup Hidle.
  pose proof (getTraffic_labelled w cfg (at_traffic w cfg p) up down Hdown Hup)
    as Htraffic.
  change (userModels (at_traffic w cfg p)) with (userModels p) in Htraffic.
  rewrite (filter_none _ (userModels p)) in Htraffic
    by (intros x Hx; rewrite (Hidle x Hx); reflexivity).
  simpl map in Htraffic.
  rewrite (do_to_reconciliation w cfg p _ [] Hreach Htraffic).
  set (p2 := after (at_traffic w cfg p) (userModels p) (read_events (userModels p))).
  assert (Hsame : after p2 (userModels p2) (account_events w cfg (trace p2) []) = p2)
    by apply after_nil.
  rewrite Hsame.
  destruct (syncUser_outcome w cfg p2) as ((sevs & Hsevs & Hsync) & _ & _).
  destruct (syncUser w cfg p2) as [[[a d] e] q|q]; cbn [final deferred] in *.
  - exists (sevs ++ [summary w a d (tally_of w cfg [])]). split.
    + cbn [trace fst snd]. rewrite Hsevs. unfold p2, after. cbn [trace].
      rewrite <- !app_assoc. reflexivity.
    + rewrite filter_app, (no_accounting_in_sync sevs Hsync). reflexivity.
  - exists sevs. split.
    + rewrite Hsevs. unfold p2, after. cbn [trace].
      rewrite <- !app_assoc. reflexivity.
    + apply no_accounting_in_sync. exact Hsync.
Qed.

Lemma idle_cycle_writes_nothing_witness :
  exists sevs,
    trace (final (do world_rotation (config false rate_1) (start [alice; bob])))
    = [EvPing; EvCreateNodeInfo (mkNodeInfo 7 1 "0.00 0.00 0.00")]
        ++ [EvGetUserDownlink "alice@x"; EvGetUserUplink "alice@x";
            EvGetUserDownlink "bob@x"; EvGetUserUplink "bob@x"]
        ++ sevs
    /\ filter is_accounting_write sevs = [].
Proof.
  exact (idle_cycle_writes_nothing world_rotation (config false rate_1)
           (start [alice; bob]) (fun _ => 0%N) (fun _ => 0%N)
           (conj eq_refl eq_refl) (fun _ _ => eq_refl) (fun _ _ => eq_refl)
           (fun _ _ => eq_refl)).
Defined.

(** The history of [syncUser] past the fetch of a non-empty list. *)
Lemma syncUser_removals_first_shape (w : World) (cfg : Config) (p : Panel)
      (fetched : list UserModel) :
  db_GetAllUsers w (trace p) (NodeID cfg) = inr fetched ->
  fetched <> [] ->
  (exists evs,
      trace (final (syncUser w cfg p))
      = trace p ++ EvGetAllUsers (NodeID cfg)
                :: del_events (delUserModels fetched (userModels p)) ++ evs
      /\ Forall (fun e => is_add_phase_event e = true) evs)
  \/ (exists ds m,
         trace (final (syncUser w cfg p))
         = trace p ++ EvGetAllUsers (NodeID cfg) :: del_events ds ++ [EvDelUser m]).
Proof.
  intros Hget Hne.
  pose proof (syncUser_fetched w cfg p fetched Hget Hne) as Hs.
  unfold bind at 1 in Hs.
  destruct (syncUser_delete_phase w cfg p fetched)
    as [H|(l1 & d & l2 & e & Hl & Hd & He & H)]; cbv zeta in H; rewrite H in Hs;
    cbn [snd fst] in Hs.
  - left. set (p1 := after p _ _) in Hs.
    destruct (syncUser_add_outcome w cfg (addUserModels fetched (userModels p))
                                   0 None p1)
      as ((evs & Hev & Hall) & _ & _). cbv zeta in Hev.
    exists evs. split; [|exact Hall].
    rewrite Hs. unfold bind.
    destruct (syncUser_add w cfg _ 0 None p1) as [a q|q];
      unfold ret; cbn [final] in *; rewrite Hev; unfold p1, after;
      cbn [trace]; rewrite <- app_assoc; reflexivity.
  - right. exists (delUserModels fetched l1), (Email d).
    rewrite Hs. reflexivity.
Qed.

Lemma no_admin_in_reads (evs : list Event) :
  Forall (fun e => is_stats_read e = true) evs -> filter is_admin_call evs = [].
Proof.
  induction 1 as [|e evs He _ IH]; simpl; [reflexivity|].
  destruct e; simpl in *; try discriminate; exact IH.
Qed.

(** X19. Whenever [do] returns an error, nothing was reconciled: the
    provisioned users are the ones the cycle started with, the retry counter
    is zero, and the cycle made no fetch, no add call and no remove call. *)
Theorem do_error_keeps_users (w : World) (cfg : Config) (p q : Panel) (e : Error) :
  do w cfg p = Done (Some e) q ->
  userModels q = userModels p
  /\ RetryTimes q = 0
  /\ exists evs, trace q = trace p ++ evs
                 /\ filter is_admin_call evs = []
                 /\ ~ In (EvGetAllUsers (NodeID cfg)) evs.
Proof.
  intros Hdo.
  destruct (db_Ping w (trace p)) as [x|] eqn:Hping.
  { rewrite (do_ping_failed w cfg p x Hping) in Hdo. discriminate. }
  destruct (db_CreateNodeInfo w (trace p ++ [EvPing])
                              (heartbeat w cfg (trace p ++ [EvPing])))
    as [x|] eqn:Hbeat.
  { rewrite (do_heartbeat_failed w cfg p x Hping Hbeat) in Hdo.
    injection Hdo as _ <-. split; [reflexivity|]. split; [reflexivity|].
    eexists. split; [reflexivity|]. split; [reflexivity|].
    intros [H|[H|[H|[]]]]; discriminate H. }
  assert (Hreach : reaches_traffic w cfg p) by (split; assumption).
  destruct (getTraffic_outcome w cfg (at_traffic w cfg p))
    as (logs & err & evs & Hrun & _).
  remember (after (at_traffic w cfg p) (userModels (at_traffic w cfg p)) evs)
    as p2 eqn:Hp2. clear Hp2.
  destruct err as [x|].
  - destruct (do_on_traffic_error w cfg p p2 logs x Hreach Hrun)
      as (H & reads & last & Htrace & Hall & _).
    rewrite H in Hdo. injection Hdo as _ <-.
    split; [reflexivity|]. split; [reflexivity|].
    exists ([EvPing; EvCreateNodeInfo (heartbeat w cfg (trace p ++ [EvPing]))]
              ++ (reads ++ [last]) ++ [summary w 0 0 tally0]).
    split; [|split].
    + cbn [trace]. rewrite Htrace. unfold at_traffic. cbn [trace].
      rewrite <- !app_assoc. reflexivity.
    + rewrite filter_app, filter_app, (no_admin_in_reads _ Hall). reflexivity.
    + intros Hin. apply in_app_or in Hin. destruct Hin as [[Hin|[Hin|[]]]|Hin];
        try discriminate Hin.
      apply in_app_or in Hin. destruct Hin as [Hin|[Hin|[]]]; [|discriminate Hin].
      rewrite Forall_forall in Hall. apply Hall in Hin. discriminate Hin.
  - destruct (do_after_traffic w cfg p _ logs Hreach Hrun)
      as (_ & [(q' & H)|(_ & h & x & u & H & _)]);
      rewrite H in Hdo; discriminate.
Qed.

Lemma do_error_keeps_users_witness :
  userModels (final (do world_stats_fail (config false rate_1)
                        (start [alice; bob])))
  = [alice; bob].
Proof.
  exact (proj1 (do_error_keeps_users world_stats_fail (config false rate_1)
                  (start [alice; bob])
                  (final (do world_stats_fail (config false rate_1)
                             (start [alice; bob])))
                  "stats down"%string eq_refl)).
Defined.

(** X20. Whatever happens, [syncUser] starts with exactly one fetch and
    after it leaves only remove calls, add calls, log lines and the fatal
    stop: it never pings, reads stats or writes to the database, never
    fetches twice, and never touches the retry counter. *)
Theorem syncUser_footprint (w : World) (cfg : Config) (p : Panel) :
  let q := final (syncUser w cfg p) in
  RetryTimes q = RetryTimes p
  /\ exists rest,
      trace q = trace p ++ EvGetAllUsers (NodeID cfg) :: rest
      /\ Forall (fun e => is_add_phase_event e = true \/ is_del_call e = true) rest.
Proof.
  intros q. unfold q.
  destruct (syncUser_outcome w cfg p) as (_ & Hr & _).
  split; [exact Hr|].
  assert (Hdels : forall ds, Forall (fun e => is_add_phase_event e = true
                                              \/ is_del_call e = true)
                                    (del_events ds)).
  { induction ds as [|d ds IH]; simpl; [constructor|].
    constructor; [right; reflexivity|]. constructor; [left; reflexivity | exact IH]. }
  destruct (db_GetAllUsers w (trace p) (NodeID cfg)) as [e|fetched] eqn:Hget.
  { exists []. unfold syncUser. run. rewrite Hget. run.
    split; [reflexivity | constructor]. }
  destruct fetched as [|f fetched].
  { exists []. rewrite (syncUser_empty w cfg p Hget).
    split; [reflexivity | constructor]. }
  assert (Hne : f :: fetched <> []) by discriminate.
  destruct (syncUser_removals_first_shape w cfg p (f :: fetched) Hget Hne)
    as [(evs & Htrace & Hall)|(ds & m & Htrace)].
  - exists (del_events (delUserModels (f :: fetched) (userModels p)) ++ evs).
    split; [exact Htrace|]. apply Forall_app. split; [apply Hdels|].
    eapply Forall_impl; [|exact Hall]. intros a Ha. left. exact Ha.
  - exists (del_events ds ++ [EvDelUser m]). split; [exact Htrace|].
    apply Forall_app. split; [apply Hdels|].
    constructor; [right; reflexivity | constructor].
Qed.
